(** * Sheet-name resolution and merge sequencing of the XLSX merger (src/App.tsx)

    A shallow embedding of the component [App]: the pending-file list and its
    handlers ([handleFileSelect], [removeFile], [updateSheetName]) and the
    merge loop of [mergeAndDownload] with its sheet-name collision
    resolution.

    JavaScript values are modelled as follows.
    - A string is the list of its UTF-16 code units; [length] is the
      JavaScript [length] and [slice] follows [String.prototype.slice].
    - The loop counter is a JavaScript number.  It only ever holds the
      integers 1, 2, 3, ... which a double represents exactly up to 2^53;
      there [counter++] stops changing the value.  The counter is an [N]
      with that saturation written out in [incr].
    - The spreadsheet codec (the xlsx package) is outside the repository:
      reading is a parameter of the development and the workbook
      operations are modelled from what the specification says of them.
    - A [while] loop takes fuel, one unit for each execution of its body. *)

From Stdlib Require Import String Ascii.
From Stdlib Require Import List Bool Arith ZArith NArith Lia.
From Stdlib Require Finite.
Import ListNotations.

Local Open Scope list_scope.

(** ** JavaScript strings *)

Definition jsstring := list N.

(** The code units of an ASCII literal. *)
Definition js (s : string) : jsstring :=
  map N_of_ascii (list_ascii_of_string s).

Fixpoint jsstring_eqb (s t : jsstring) : bool :=
  match s, t with
  | [], [] => true
  | c :: s', d :: t' => N.eqb c d && jsstring_eqb s' t'
  | _, _ => false
  end.

(** [String.prototype.slice(start, end)]: a negative index counts from the
    end, both are clamped to the string. *)
Definition relative_index (len i : Z) : Z :=
  if (i <? 0)%Z then Z.max (len + i) 0 else Z.min i len.

Definition slice (s : jsstring) (start fin : Z) : jsstring :=
  let len := Z.of_nat (length s) in
  let from := relative_index len start in
  let to := relative_index len fin in
  firstn (Z.to_nat (Z.max (to - from) 0)) (skipn (Z.to_nat from) s).

(** [String.prototype.endsWith(searchString)]. *)
Definition endsWith (s suffix : jsstring) : bool :=
  (length suffix <=? length s) &&
  jsstring_eqb (skipn (length s - length suffix) s) suffix.

(** [Array.prototype.includes] on an array of strings. *)
Definition includes (a : list jsstring) (s : jsstring) : bool :=
  existsb (jsstring_eqb s) a.

(** ** JavaScript numbers holding a counter *)

Definition MAX_EXACT : N := 9007199254740992. (* 2^53 *)

(** [counter++] on a double that holds a positive integer. *)
Definition incr (counter : N) : N :=
  if (counter <? MAX_EXACT)%N then (counter + 1)%N else counter.

(** Decimal digits of a number, least significant first. *)
Fixpoint digits_rev (fuel : nat) (n : N) : jsstring :=
  match fuel with
  | O => []
  | S fuel' =>
      if (n <? 10)%N then [(48 + n)%N]
      else (48 + n mod 10)%N :: digits_rev fuel' (n / 10)%N
  end.

(** [Number.prototype.toString()] of a non-negative integer below 10^21, as
    the template literal [`${counter}`] applies it. *)
Definition toString (n : N) : jsstring :=
  rev (digits_rev (S (N.to_nat (N.log2 n))) n).

(** The code units [0] to [9]. *)
Definition is_digit (c : N) : Prop := (48 <= c <= 57)%N.

(** The number that decimal digits, least significant first, stand for. *)
Fixpoint digits_value (ds : jsstring) : N :=
  match ds with
  | [] => 0
  | d :: ds' => (d - 48) + 10 * digits_value ds'
  end%N.

(** ** The collision loop of [mergeAndDownload] (lines 74-80) *)

(** [const suffix = `_${counter}`] *)
Definition suffix_of (counter : N) : jsstring :=
  js "_" ++ toString counter.

(** [uploadedFile.sheetName.slice(0, 31 - suffix.length) + suffix] *)
Definition candidate (requested : jsstring) (counter : N) : jsstring :=
  let suffix := suffix_of counter in
  slice requested 0 (31 - Z.of_nat (length suffix)) ++ suffix.

(** [while (newWorkbook.SheetNames.includes(sheetName)) { ... }] on the
    variables [sheetName] and [counter]; [None] when the fuel does not
    cover the executions of the body. *)
Fixpoint while_loop (fuel : nat) (SheetNames : list jsstring)
    (requested sheetName : jsstring) (counter : N) : option (jsstring * N) :=
  if includes SheetNames sheetName then
    match fuel with
    | O => None
    | S fuel' =>
        while_loop fuel' SheetNames requested
          (candidate requested counter) (incr counter)
    end
  else Some (sheetName, counter).

(** Lines 74-80: the name under which the next sheet is appended, and the
    final value of the counter. *)
Definition resolve (fuel : nat) (SheetNames : list jsstring)
    (requested : jsstring) : option (jsstring * N) :=
  while_loop fuel SheetNames requested (slice requested 0 31) 1%N.

(** ** The extension regex of [handleFileSelect] (line 25) *)

(** Canonical form of a code unit under the [i] flag, as far as it decides
    a match against an ASCII pattern character: [a]-[z] fold to [A]-[Z];
    a code unit from 128 on never folds to an ASCII one, so it is left
    as it is. *)
Definition canonicalize (c : N) : N :=
  if ((97 <=? c) && (c <=? 122))%N then (c - 32)%N else c.

Fixpoint matches_ignoring_case (s pattern : jsstring) : bool :=
  match s, pattern with
  | [], [] => true
  | c :: s', p :: pattern' =>
      N.eqb (canonicalize c) (canonicalize p) && matches_ignoring_case s' pattern'
  | _, _ => false
  end.

(** [/\.(xlsx|xls)$/i] matched at the start of [s]: a dot, one of the two
    alternatives, then the end of the input. *)
Definition extension_regex_at (s : jsstring) : bool :=
  matches_ignoring_case s (js ".xlsx") || matches_ignoring_case s (js ".xls").

(** [name.replace(/\.(xlsx|xls)$/i, '')]: the leftmost match is replaced by
    the empty string; a match always reaches the end of the input. *)
Fixpoint replace_extension (s : jsstring) : jsstring :=
  if extension_regex_at s then []
  else match s with
       | [] => []
       | c :: s' => c :: replace_extension s'
       end.

(** A name that ends in one of the two recognized extensions, with what
    precedes the extension. *)
Definition has_extension (file_name stem : jsstring) : Prop :=
  file_name = stem ++ js ".xlsx" \/ file_name = stem ++ js ".xls".

(** ** Arrays with an index callback *)

Fixpoint mapi_from {A B : Type} (i : nat) (f : A -> nat -> B) (l : list A) : list B :=
  match l with
  | [] => []
  | x :: l' => f x i :: mapi_from (S i) f l'
  end.

Fixpoint filteri_from {A : Type} (i : nat) (f : A -> nat -> bool) (l : list A) : list A :=
  match l with
  | [] => []
  | x :: l' => if f x i then x :: filteri_from (S i) f l' else filteri_from (S i) f l'
  end.

(** ** The component *)

Section App.

(** The bytes of a file, the content of a sheet and the value of an
    exception are opaque to the component. *)
Context {ArrayBuffer WorkSheet Error : Type}.

(** The outcome of a call that may throw (or of an awaited promise that
    may reject). *)
Inductive completion (A : Type) : Type :=
| Normal (a : A)
| Throw (error : Error).
Arguments Normal {A} a.
Arguments Throw {A} error.

(** The browser's [File]: its [name] and what [arrayBuffer()] settles to. *)
Record File : Type := {
  File_name : jsstring;
  File_arrayBuffer : completion ArrayBuffer
}.

Record UploadedFile : Type := {
  name : jsstring;
  file : File;
  sheetName : jsstring
}.

(** The codec's workbook: [SheetNames] is an array, [Sheets] an object
    used as a map from a name to a sheet; a property may hold
    [undefined] ([None]). *)
Record WorkBook : Type := {
  SheetNames : list jsstring;
  Sheets : list (jsstring * option WorkSheet)
}.

(** [XLSX.read(arrayBuffer, { type: 'array' })], a parameter. *)
Variable XLSX_read : ArrayBuffer -> completion WorkBook.

(** [obj[key]]: the newest binding of the key; a missing property reads
    as [undefined]. *)
Fixpoint property_get (obj : list (jsstring * option WorkSheet)) (key : jsstring)
    : option WorkSheet :=
  match obj with
  | [] => None
  | (k, v) :: obj' => if jsstring_eqb k key then v else property_get obj' key
  end.

(** A property key from [SheetNames[0]], which is [undefined] for an
    empty array. *)
Definition property_key (v : option jsstring) : jsstring :=
  match v with
  | Some s => s
  | None => js "undefined"
  end.

(** Modelled from the spec: the codec's [newWorkbook()], absent from the
    repository, gives a workbook without sheets. *)
Definition book_new : WorkBook :=
  {| SheetNames := []; Sheets := [] |}.

(** Modelled from the spec: the codec's [appendSheet(Workbook, content,
    name)], absent from the repository, inserts the pair of the name and
    the content, the order of insertion being the order of the sheets. *)
Definition book_append_sheet (wb : WorkBook) (ws : option WorkSheet)
    (sheet_name : jsstring) : WorkBook :=
  {| SheetNames := SheetNames wb ++ [sheet_name];
     Sheets := (sheet_name, ws) :: Sheets wb |}.

Record AppState : Type := {
  files : list UploadedFile;
  isProcessing : bool;
  isDragOver : bool
}.

Definition setFiles (update : list UploadedFile -> list UploadedFile)
    (st : AppState) : AppState :=
  {| files := update (files st);
     isProcessing := isProcessing st;
     isDragOver := isDragOver st |}.

Definition setIsProcessing (b : bool) (st : AppState) : AppState :=
  {| files := files st; isProcessing := b; isDragOver := isDragOver st |}.

Definition setIsDragOver (b : bool) (st : AppState) : AppState :=
  {| files := files st; isProcessing := isProcessing st; isDragOver := b |}.

Definition initial_state : AppState :=
  {| files := []; isProcessing := false; isDragOver := false |}.

(** Lines 18-20. *)
Definition accepted (f : File) : bool :=
  endsWith (File_name f) (js ".xlsx") || endsWith (File_name f) (js ".xls").

(** Lines 22-26. *)
Definition newFile (f : File) : UploadedFile :=
  {| name := File_name f;
     file := f;
     sheetName := replace_extension (File_name f) |}.

(** Lines 15-29; [selectedFiles] is a [FileList] or [null]. *)
Definition handleFileSelect (selectedFiles : option (list File))
    (st : AppState) : AppState :=
  match selectedFiles with
  | None => st
  | Some selected =>
      let xlsxFiles := filter accepted selected in
      let newFiles := map newFile xlsxFiles in
      setFiles (fun prev => prev ++ newFiles) st
  end.

(** Lines 31-35; [e.dataTransfer.files] is a [FileList]. *)
Definition handleDrop (dropped : list File) (st : AppState) : AppState :=
  handleFileSelect (Some dropped) (setIsDragOver false st).

(** Lines 37-40. *)
Definition handleDragOver (st : AppState) : AppState :=
  setIsDragOver true st.

(** Lines 42-45. *)
Definition handleDragLeave (st : AppState) : AppState :=
  setIsDragOver false st.

(** Lines 47-49. *)
Definition removeFile (index : nat) (st : AppState) : AppState :=
  setFiles (filteri_from 0 (fun _ i => negb (i =? index))) st.

(** Lines 51-55. *)
Definition updateSheetName (index : nat) (newName : jsstring)
    (st : AppState) : AppState :=
  setFiles
    (mapi_from 0 (fun f i =>
       if i =? index
       then {| name := name f; file := file f; sheetName := newName |}
       else f))
    st.

(** What the component does to the outside. *)
Inductive effect : Type :=
| console_error (message : string) (error : Error)
| alert (message : string)
| XLSX_writeFile (wb : WorkBook) (filename : jsstring).

(** Lines 66-67: [await uploadedFile.file.arrayBuffer()], then
    [XLSX.read]; either may throw. *)
Definition decode (uploadedFile : UploadedFile) : completion WorkBook :=
  match File_arrayBuffer (file uploadedFile) with
  | Throw error => Throw error
  | Normal arrayBuffer => XLSX_read arrayBuffer
  end.

(** A file whose bytes arrive and are read as a workbook. *)
Definition decodes (uploadedFile : UploadedFile) : Prop :=
  exists workbook, decode uploadedFile = Normal workbook.

(** Lines 70-71: the first sheet of a decoded workbook. *)
Definition firstSheet (workbook : WorkBook) : option WorkSheet :=
  let firstSheetName := nth_error (SheetNames workbook) 0 in
  property_get (Sheets workbook) (property_key firstSheetName).

(** Lines 66-82, the body of the [for] loop on the workbook under
    construction; a throw leaves the loop. *)
Definition loop_body (fuel : nat) (uploadedFile : UploadedFile)
    (newWorkbook : WorkBook) : option (WorkBook * completion unit) :=
  match decode uploadedFile with
  | Throw error => Some (newWorkbook, Throw error)
  | Normal workbook =>
      let worksheet := firstSheet workbook in
      match resolve fuel (SheetNames newWorkbook) (sheetName uploadedFile) with
      | None => None
      | Some (sheet_name, _) =>
          Some (book_append_sheet newWorkbook worksheet sheet_name, Normal tt)
      end
  end.

(** Lines 65-83. *)
Fixpoint for_loop (fuel : nat) (uploaded : list UploadedFile)
    (newWorkbook : WorkBook) : option (WorkBook * completion unit) :=
  match uploaded with
  | [] => Some (newWorkbook, Normal tt)
  | uploadedFile :: rest =>
      match loop_body fuel uploadedFile newWorkbook with
      | None => None
      | Some (newWorkbook', Normal _) => for_loop fuel rest newWorkbook'
      | Some (newWorkbook', Throw error) => Some (newWorkbook', Throw error)
      end
  end.

Definition merge_error_log : string := "파일 병합 중 오류:".
Definition merge_error_alert : string := "파일 병합 중 오류가 발생했습니다.".

(** Lines 57-93.  The callback reads the list [files] of its render and
    writes only the flag [isProcessing]; the result is the state after
    [finally] and the effects in their order.  [None]: the fuel did not
    cover some [while] loop. *)
Definition mergeAndDownload (fuel : nat) (st : AppState)
    : option (AppState * list effect) :=
  if length (files st) =? 0 then Some (st, [])
  else
    match for_loop fuel (files st) book_new with
    | None => None
    | Some (newWorkbook, Normal _) =>
        Some (setIsProcessing false st,
              [XLSX_writeFile newWorkbook (js "merged.xlsx")])
    | Some (_, Throw error) =>
        Some (setIsProcessing false st,
              [console_error merge_error_log error; alert merge_error_alert])
    end.

(** The events of the interface before a merge: the file input (line
    123), the drop zone (lines 112-114), the delete button of an entry
    (line 178), its text input (line 169) and the reset button (line
    216). *)
Inductive event : Type :=
| Select (selectedFiles : option (list File))
| Drop (dropped : list File)
| DragOver
| DragLeave
| Remove (index : nat)
| Rename (index : nat) (newName : jsstring)
| ClearAll.

Definition handle (st : AppState) (e : event) : AppState :=
  match e with
  | Select selectedFiles => handleFileSelect selectedFiles st
  | Drop dropped => handleDrop dropped st
  | DragOver => handleDragOver st
  | DragLeave => handleDragLeave st
  | Remove index => removeFile index st
  | Rename index newName => updateSheetName index newName st
  | ClearAll => setFiles (fun _ => []) st
  end.

Definition run (events : list event) : AppState :=
  fold_left handle events initial_state.

(** A pending file whose sheet name has at most 31 code units. *)
Definition within_31 (u : UploadedFile) : Prop :=
  length (sheetName u) <= 31.

(** Files whose names, where they end in [.xlsx] or [.xls], have at most
    31 code units before that extension. *)
Definition short_stems (selected : list File) : Prop :=
  Forall (fun f => forall stem,
            has_extension (File_name f) stem -> length stem <= 31) selected.

(** A selection or a drop of such files, and a rename within the 31 code
    units which the attribute [maxLength] of the input (line 171) leaves
    to typed text. *)
Definition within_limit (e : event) : Prop :=
  match e with
  | Select (Some selected) => short_stems selected
  | Drop dropped => short_stems dropped
  | Rename _ newName => length newName <= 31
  | _ => True
  end.

End App.

Arguments Normal {Error A} a.
Arguments Throw {Error A} error.

(** ** Statements of the specification *)

(** Sheet names that are pairwise distinct and of at most 31 code units. *)
Definition distinct_and_bounded (names : list jsstring) : Prop :=
  NoDup names /\ Forall (fun n => length n <= 31) names.

(** The no-op policy for an empty list: the state is as before and nothing
    is written, logged or shown. *)
Definition is_noop {ArrayBuffer WorkSheet Error : Type}
    (st : @AppState ArrayBuffer Error)
    (result : option (@AppState ArrayBuffer Error * list (@effect WorkSheet Error)))
    : Prop :=
  result = Some (st, []).

(** The other policy for an empty list: a workbook of zero sheets is
    written. *)
Definition writes_empty_workbook {ArrayBuffer WorkSheet Error : Type}
    (result : option (@AppState ArrayBuffer Error * list (@effect WorkSheet Error)))
    : Prop :=
  exists st' wb filename,
    result = Some (st', [XLSX_writeFile wb filename]) /\ SheetNames wb = [].

(** ** Sample data

    Bytes are numbers, a sheet is its rows of cells, an exception is a
    message.  The sample codec rejects an empty buffer and reads any other
    as a workbook of one sheet holding the bytes in a row. *)

Definition sample_read (bytes : list N) : @completion string (@WorkBook (list (list N))) :=
  match bytes with
  | [] => Throw "empty"%string
  | _ => Normal {| SheetNames := [js "Sheet1"];
                   Sheets := [(js "Sheet1", Some [bytes])] |}
  end.

Definition sample_file (file_name : string) (bytes : list N) : @File (list N) string :=
  {| File_name := js file_name; File_arrayBuffer := Normal bytes |}.

Definition sample_upload (file_name sheet_name : string) (bytes : list N)
    : @UploadedFile (list N) string :=
  {| name := js file_name;
     file := sample_file file_name bytes;
     sheetName := js sheet_name |}.

Definition sample_state (uploaded : list (@UploadedFile (list N) string))
    : @AppState (list N) string :=
  {| files := uploaded; isProcessing := false; isDragOver := false |}.


(** 31 letters, and 32 letters. *)
Definition name_31 : string := "abcdefghijklmnopqrstuvwxyzABCDE".
Definition name_32 : string := "abcdefghijklmnopqrstuvwxyzABCDEF".
Definition name_32_xlsx : string := "abcdefghijklmnopqrstuvwxyzABCDEF.xlsx".

(** Five files: two pairs request the same name, one name is empty and
    one has 32 code units. *)
Definition sample_uploads : list (@UploadedFile (list N) string) :=
  [sample_upload "jan.xlsx" "Data" [1%N];
   sample_upload "feb.xlsx" "Data" [2%N];
   sample_upload "mar.xlsx" "" [3%N];
   sample_upload "apr.xlsx" name_32 [4%N];
   sample_upload "may.xlsx" name_32 [5%N]].

(** Three files with names of their own. *)
Definition sample_uploads_distinct : list (@UploadedFile (list N) string) :=
  [sample_upload "jan.xlsx" "Jan" [1%N];
   sample_upload "feb.xlsx" "Feb" [2%N];
   sample_upload "mar.xlsx" "Mar" [3%N]].

(** Three files of which the second does not decode. *)
Definition sample_uploads_broken : list (@UploadedFile (list N) string) :=
  [sample_upload "jan.xlsx" "Jan" [1%N];
   sample_upload "feb.xlsx" "Feb" [];
   sample_upload "mar.xlsx" "Mar" [3%N]].

(** A session: a selection of two files of which one is kept, a drop, a
    rename, an empty selection and a removal. *)
Definition sample_session : list (@event (list N) string) :=
  [Select (Some [sample_file "a.xlsx" [1%N]; sample_file "notes.txt" [2%N]]);
   DragOver;
   Drop [sample_file "b.xls" [3%N]];
   Rename 0 (js name_31);
   Select None;
   Remove 1].

(** ** The rendered interface (lines 145-212) *)

(** Line 145: the list, the merge button and the reset button are in the
    page only under [files.length > 0]. *)
Definition list_rendered {ArrayBuffer Error : Type}
    (st : @AppState ArrayBuffer Error) : bool :=
  0 <? length (files st).

(** Line 194: [disabled={isProcessing || files.length === 0}]. *)
Definition merge_button_disabled {ArrayBuffer Error : Type}
    (st : @AppState ArrayBuffer Error) : bool :=
  isProcessing st || (length (files st) =? 0).

(** A click reaches [mergeAndDownload] (line 193) when the button is in
    the page and not disabled. *)
Definition merge_button_clickable {ArrayBuffer Error : Type}
    (st : @AppState ArrayBuffer Error) : bool :=
  list_rendered st && negb (merge_button_disabled st).

(** ** Further statements *)

(** The entry that [updateSheetName] puts in the place of an entry (line
    53: [{ ...f, sheetName: newName }]). *)
Definition renamed {ArrayBuffer Error : Type} (newName : jsstring)
    (f : @UploadedFile ArrayBuffer Error) : @UploadedFile ArrayBuffer Error :=
  {| name := name f; file := file f; sheetName := newName |}.

(** A sheet name made from a requested name: its first 31 code units, or a
    shorter cut of it followed by a suffix [_k]. *)
Definition resolved_from (requested nm : jsstring) : Prop :=
  nm = firstn 31 requested \/
  exists k, (1 <= k)%N /\
    nm = firstn (31 - length (js "_" ++ toString k)) requested
         ++ js "_" ++ toString k.

(** The names of a workbook after [m + 1] files that all requested the
    short name [s]. *)
Definition numbered (s : jsstring) (m : nat) : list jsstring :=
  s :: map (fun j => candidate s (N.of_nat j)) (seq 1 m).

(** A pending entry as a selection makes it: it shows the name of its
    file, and that name has passed the filter. *)
Definition from_selection {ArrayBuffer Error : Type}
    (u : @UploadedFile ArrayBuffer Error) : Prop :=
  name u = File_name (file u) /\ accepted (file u) = true.

(** More sample data: entries for four files, and a list of two names of
    40 code units that agree on the first 31. *)
Definition sample_pending : @AppState (list N) string :=
  sample_state
    [sample_upload "a.xlsx" "a" [1%N]; sample_upload "b.xlsx" "b" [2%N];
     sample_upload "c.xlsx" "c" [3%N]; sample_upload "d.xlsx" "d" [4%N]].

Definition name_40_a : string := "abcdefghijklmnopqrstuvwxyzABCDE_first_ab".
Definition name_40_b : string := "abcdefghijklmnopqrstuvwxyzABCDE_other_cd".

Definition sample_uploads_long : list (@UploadedFile (list N) string) :=
  [sample_upload "x.xlsx" name_40_a [1%N]; sample_upload "y.xlsx" name_40_b [2%N]].

Definition sample_uploads_same : list (@UploadedFile (list N) string) :=
  [sample_upload "q1.xlsx" "Report" [1%N]; sample_upload "q2.xlsx" "Report" [2%N];
   sample_upload "q3.xlsx" "Report" [3%N]; sample_upload "q4.xlsx" "Report" [4%N]].

(** What [sample_read] makes of a buffer that is not empty. *)
Definition sample_book (bytes : list N) : @WorkBook (list (list N)) :=
  {| SheetNames := [js "Sheet1"]; Sheets := [(js "Sheet1", Some [bytes])] |}.

(** Other files that request the names of [sample_uploads_same]. *)
Definition sample_uploads_same_names : list (@UploadedFile (list N) string) :=
  [sample_upload "north.xls" "Report" [9%N; 9%N]; sample_upload "south.xls" "Report" [8%N];
   sample_upload "east.xls" "Report" [7%N]; sample_upload "west.xls" "Report" [6%N]].

(** A selection of three files of which two are kept. *)
Definition sample_selection : list (@File (list N) string) :=
  [sample_file "a.xlsx" [1%N]; sample_file "notes.txt" [2%N];
   sample_file "b.xls" [3%N]].

Example toString_0 : toString 0 = js "0".
Proof. reflexivity. Qed.

Example toString_10 : toString 10 = js "10".
Proof. reflexivity. Qed.

Example toString_max : toString MAX_EXACT = js "9007199254740992".
Proof. vm_compute. reflexivity. Qed.

Example slice_neg : slice (js "abcdef") 0 (-2) = js "abcd".
Proof. reflexivity. Qed.

Example resolve_Data :
  resolve 1 [js "Data"] (js "Data") = Some (js "Data_1", 2%N).
Proof. vm_compute. reflexivity. Qed.

(** ** Strings *)

Lemma jsstring_eqb_eq (s t : jsstring) : jsstring_eqb s t = true <-> s = t.
Proof.
  revert t; induction s as [|c s IH]; intros [|d t]; simpl;
    try (split; congruence).
  rewrite andb_true_iff, N.eqb_eq, IH.
  split; [intros [-> ->]; reflexivity | intros [= -> ->]; auto].
Qed.

Lemma includes_In (a : list jsstring) (s : jsstring) :
  includes a s = true <-> In s a.
Proof.
  unfold includes. rewrite existsb_exists. split.
  - intros [t [Hin Heq]]. apply jsstring_eqb_eq in Heq. now subst.
  - intros Hin. exists s. split; [assumption | now apply jsstring_eqb_eq].
Qed.

Lemma includes_not_In (a : list jsstring) (s : jsstring) :
  includes a s = false <-> ~ In s a.
Proof.
  rewrite <- includes_In. destruct (includes a s); split; congruence.
Qed.

(** [slice(0, n)] with [n] not negative takes the first [n] code units. *)
Lemma slice_prefix (s : jsstring) (n : Z) :
  (0 <= n)%Z -> slice s 0 n = firstn (Z.to_nat n) s.
Proof.
  intros Hn. unfold slice, relative_index.
  replace (0 <? 0)%Z with false by reflexivity.
  destruct (n <? 0)%Z eqn:E; [apply Z.ltb_lt in E; lia|].
  rewrite (Z.min_l 0) by lia. simpl skipn.
  destruct (Z_le_gt_dec n (Z.of_nat (length s))) as [Hle|Hgt].
  - f_equal. lia.
  - rewrite (firstn_all2 (n := Z.to_nat n)) by lia.
    apply firstn_all2. lia.
Qed.

Lemma slice_short (s : jsstring) (n : Z) :
  (Z.of_nat (length s) <= n)%Z -> slice s 0 n = s.
Proof.
  intros H. rewrite slice_prefix by lia. apply firstn_all2. lia.
Qed.

Lemma slice_length (s : jsstring) (n : Z) :
  (0 <= n)%Z -> length (slice s 0 n) <= Z.to_nat n.
Proof.
  intros H. rewrite slice_prefix by assumption. rewrite length_firstn. lia.
Qed.

Lemma endsWith_spec (s suffix : jsstring) :
  endsWith s suffix = true <-> exists stem, s = stem ++ suffix.
Proof.
  unfold endsWith. rewrite andb_true_iff, Nat.leb_le, jsstring_eqb_eq. split.
  - intros [Hlen Heq]. exists (firstn (length s - length suffix) s).
    transitivity (firstn (length s - length suffix) s
                  ++ skipn (length s - length suffix) s).
    + symmetry. apply firstn_skipn.
    + now rewrite Heq.
  - intros [stem ->]. rewrite length_app. split; [lia|].
    replace (length stem + length suffix - length suffix) with (length stem) by lia.
    rewrite skipn_app, Nat.sub_diag, skipn_all. reflexivity.
Qed.

(** ** Decimal digits *)

Lemma digits_rev_digit (fuel : nat) (n : N) :
  Forall is_digit (digits_rev fuel n).
Proof.
  revert n; induction fuel as [|fuel IH]; intros n; cbn [digits_rev];
    [constructor|].
  destruct (n <? 10)%N eqn:E.
  - apply N.ltb_lt in E. constructor; [unfold is_digit; lia | constructor].
  - constructor; [|apply IH].
    assert (Hm : (n mod 10 < 10)%N) by (apply N.mod_upper_bound; discriminate).
    unfold is_digit. revert Hm. generalize (n mod 10)%N. intros m Hm. lia.
Qed.

Lemma digits_rev_value (fuel : nat) (n : N) :
  (n < 2 ^ N.of_nat fuel)%N -> digits_value (digits_rev fuel n) = n.
Proof.
  revert n; induction fuel as [|fuel IH]; intros n Hn.
  - simpl in Hn. simpl. lia.
  - cbn [digits_rev]. destruct (n <? 10)%N eqn:E.
    + cbn [digits_value]. lia.
    + apply N.ltb_ge in E. cbn [digits_value]. rewrite IH.
      * assert (Hm : (n mod 10 < 10)%N) by (apply N.mod_upper_bound; discriminate).
        rewrite (N.div_mod n 10) at 3 by discriminate.
        revert Hm. generalize (n mod 10)%N (n / 10)%N. intros m q Hm. lia.
      * rewrite Nat2N.inj_succ, N.pow_succ_r' in Hn.
        apply N.Div0.div_lt_upper_bound. lia.
Qed.

Lemma digits_rev_length (fuel k : nat) (n : N) :
  (n < 10 ^ N.of_nat (S k))%N -> length (digits_rev fuel n) <= S k.
Proof.
  revert n k; induction fuel as [|fuel IH]; intros n k Hn;
    cbn [digits_rev]; [simpl; lia|].
  destruct (n <? 10)%N eqn:E; cbn [length]; [lia|].
  apply N.ltb_ge in E. apply le_n_S.
  rewrite Nat2N.inj_succ, N.pow_succ_r' in Hn.
  destruct k as [|k]; [simpl in Hn; lia|].
  apply IH. apply N.Div0.div_lt_upper_bound. lia.
Qed.

Lemma toString_digit (n : N) : Forall is_digit (toString n).
Proof.
  unfold toString. apply Forall_rev. apply digits_rev_digit.
Qed.

Lemma toString_inj (n m : N) : toString n = toString m -> n = m.
Proof.
  unfold toString. intros H.
  apply (f_equal (@rev N)) in H. rewrite !rev_involutive in H.
  apply (f_equal digits_value) in H.
  assert (enough : forall x : N, (x < 2 ^ N.of_nat (S (N.to_nat (N.log2 x))))%N).
  { intros x. rewrite Nat2N.inj_succ, N2Nat.id.
    destruct (N.eq_dec x 0) as [->|Hx]; [reflexivity|].
    apply N.log2_spec. lia. }
  rewrite !digits_rev_value in H by apply enough. exact H.
Qed.

Lemma toString_length (n : N) :
  (n <= MAX_EXACT)%N -> length (toString n) <= 16.
Proof.
  intros H. unfold toString. rewrite length_rev.
  apply digits_rev_length. unfold MAX_EXACT in H.
  change (10 ^ N.of_nat 16)%N with 10000000000000000%N. lia.
Qed.

(** ** Candidates of the collision loop *)

Lemma suffix_of_cons (k : N) : suffix_of k = 95%N :: toString k.
Proof. reflexivity. Qed.

Lemma suffix_of_length (k : N) :
  (k <= MAX_EXACT)%N -> length (suffix_of k) <= 17.
Proof.
  intros H. rewrite suffix_of_cons. cbn [length].
  apply toString_length in H. lia.
Qed.

(** Within the exact range of the counter the base is cut from the left
    end of the requested name, the suffix is kept whole. *)
Lemma candidate_prefix (requested : jsstring) (k : N) :
  (k <= MAX_EXACT)%N ->
  candidate requested k =
  firstn (31 - length (suffix_of k)) requested ++ suffix_of k.
Proof.
  intros H. apply suffix_of_length in H. unfold candidate.
  rewrite slice_prefix by lia. do 2 f_equal. lia.
Qed.

Lemma candidate_length (requested : jsstring) (k : N) :
  (k <= MAX_EXACT)%N -> length (candidate requested k) <= 31.
Proof.
  intros H. rewrite candidate_prefix by assumption.
  apply suffix_of_length in H.
  rewrite length_app, length_firstn. lia.
Qed.

(** Two strings that agree and end in a separator followed by text free of
    the separator have the same such text. *)
Lemma tail_after_separator (x : N) (a b d1 d2 : jsstring) :
  ~ In x d1 -> ~ In x d2 -> a ++ x :: d1 = b ++ x :: d2 -> d1 = d2.
Proof.
  intros H1 H2. revert b. induction a as [|c a IH]; intros [|d b] H; simpl in H.
  - congruence.
  - injection H as _ H. exfalso. apply H1. rewrite H. apply in_elt.
  - injection H as _ H. exfalso. apply H2. rewrite <- H. apply in_elt.
  - injection H as _ H. apply (IH b H).
Qed.

Lemma underscore_not_digit (k : N) : ~ In 95%N (toString k).
Proof.
  intros Hin. pose proof (toString_digit k) as Hd.
  rewrite Forall_forall in Hd. apply Hd in Hin. unfold is_digit in Hin. lia.
Qed.

Lemma candidate_inj (requested : jsstring) (k k' : N) :
  candidate requested k = candidate requested k' -> k = k'.
Proof.
  unfold candidate. rewrite !suffix_of_cons. intros H.
  apply tail_after_separator in H; auto using underscore_not_digit.
  now apply toString_inj.
Qed.

(** ** The collision loop *)

Lemma incr_exact (k : N) : (k < MAX_EXACT)%N -> incr k = (k + 1)%N.
Proof.
  intros H. unfold incr. apply N.ltb_lt in H. now rewrite H.
Qed.

Lemma incr_bound (k : N) : (k <= MAX_EXACT)%N -> (incr k <= MAX_EXACT)%N.
Proof.
  intros H. unfold incr. destruct (k <? MAX_EXACT)%N eqn:E; [|assumption].
  apply N.ltb_lt in E. lia.
Qed.

Lemma incr_ge (k : N) : (k <= incr k)%N.
Proof.
  unfold incr. destruct (k <? MAX_EXACT)%N; lia.
Qed.

(** More fuel does not change a result. *)
Lemma while_loop_mono (fuel fuel' : nat) names requested s k r :
  fuel <= fuel' ->
  while_loop fuel names requested s k = Some r ->
  while_loop fuel' names requested s k = Some r.
Proof.
  revert fuel' s k. induction fuel as [|fuel IH]; intros fuel' s k Hle H.
  - destruct fuel'; simpl in *; destruct (includes names s); congruence.
  - destruct fuel' as [|fuel']; [lia|]. simpl in *.
    destruct (includes names s); [|assumption].
    apply IH; [lia | assumption].
Qed.

(** The loop ends on a name that the workbook does not have. *)
Lemma while_loop_fresh (fuel : nat) names requested s k nm c :
  while_loop fuel names requested s k = Some (nm, c) -> ~ In nm names.
Proof.
  revert s k. induction fuel as [|fuel IH]; intros s k H; simpl in H;
    destruct (includes names s) eqn:E; try discriminate.
  - injection H as <- _. now apply includes_not_In.
  - now apply IH in H.
  - injection H as <- _. now apply includes_not_In.
Qed.

(** The name stays within 31 code units and the counter within its exact
    range. *)
Lemma while_loop_bounded (fuel : nat) names requested s k nm c :
  length s <= 31 -> (k <= MAX_EXACT)%N ->
  while_loop fuel names requested s k = Some (nm, c) ->
  length nm <= 31 /\ (k <= c <= MAX_EXACT)%N.
Proof.
  revert s k. induction fuel as [|fuel IH]; intros s k Hs Hk H; simpl in H;
    destruct (includes names s) eqn:E; try discriminate.
  - injection H as <- <-. lia.
  - apply IH in H; auto using candidate_length, incr_bound.
    pose proof (incr_ge k). lia.
  - injection H as <- <-. lia.
Qed.

(** A loop that runs out of fuel stopped on a name of the workbook. *)
Lemma while_loop_None_In (fuel : nat) names requested s k :
  while_loop fuel names requested s k = None -> In s names.
Proof.
  destruct fuel; simpl; destruct (includes names s) eqn:E; try discriminate;
    intros _; now apply includes_In.
Qed.

(** A loop that runs out of fuel has found every candidate it formed in
    the workbook. *)
Lemma while_loop_exhausted (fuel : nat) names requested s k :
  (k + N.of_nat fuel <= MAX_EXACT + 1)%N ->
  while_loop fuel names requested s k = None ->
  forall i, (k <= i < k + N.of_nat fuel)%N -> In (candidate requested i) names.
Proof.
  revert s k. induction fuel as [|fuel IH]; intros s k Hk H i Hi; [lia|].
  simpl in H. destruct (includes names s); [|discriminate].
  destruct (N.eq_dec i k) as [->|Hne].
  - now apply while_loop_None_In in H.
  - rewrite incr_exact in H by lia.
    refine (IH _ (k + 1)%N _ H i _); lia.
Qed.

(** After a collision of the truncated name the result is the first
    candidate, in the order of the suffixes, that the workbook lacks. *)
Lemma while_loop_first_free (fuel : nat) names requested s k nm c :
  In s names -> (k <= MAX_EXACT)%N ->
  while_loop fuel names requested s k = Some (nm, c) ->
  exists k', (k <= k' <= MAX_EXACT)%N /\ nm = candidate requested k' /\
    forall j, (k <= j < k')%N -> In (candidate requested j) names.
Proof.
  revert s k. induction fuel as [|fuel IH]; intros s k Hin Hk H; simpl in H;
    apply includes_In in Hin; rewrite Hin in H; [discriminate|].
  destruct (includes names (candidate requested k)) eqn:E.
  - apply includes_In in E. apply (IH _ _ E (incr_bound k Hk)) in H.
    destruct H as (k' & Hle & -> & Hbelow).
    pose proof (incr_ge k).
    exists k'. split; [lia|]. split; [reflexivity|].
    intros j Hj. destruct (N.eq_dec j k) as [->|Hne]; [assumption|].
    apply Hbelow. unfold incr in *. destruct (k <? MAX_EXACT)%N; lia.
  - destruct fuel; simpl in H; rewrite E in H; injection H as <- _;
      exists k; (split; [lia|]); (split; [reflexivity|]); intros j Hj; lia.
Qed.

(** Pigeonhole: the candidates 1 .. n+1 do not all fit into n names. *)
Lemma candidates_overflow (names : list jsstring) (requested : jsstring) :
  ~ (forall i, (1 <= i < 1 + N.of_nat (S (length names)))%N ->
               In (candidate requested i) names).
Proof.
  intros Hall.
  set (cs := map (fun j => candidate requested (N.of_nat j))
                 (seq 1 (S (length names)))).
  assert (Hnd : NoDup cs).
  { apply Finite.Injective_map_NoDup; [|apply seq_NoDup].
    intros x y Hxy. apply candidate_inj in Hxy. lia. }
  assert (Hincl : incl cs names).
  { intros c Hc. apply in_map_iff in Hc. destruct Hc as (j & <- & Hj).
    apply in_seq in Hj. apply Hall. lia. }
  pose proof (NoDup_incl_length Hnd Hincl) as Hlen.
  unfold cs in Hlen. rewrite length_map, length_seq in Hlen. lia.
Qed.

(** The loop ends after at most one execution of its body more than the
    workbook has names. *)
Lemma while_loop_terminates (names : list jsstring) (requested s : jsstring) :
  (N.of_nat (length names) < MAX_EXACT)%N ->
  exists r, while_loop (S (length names)) names requested s 1 = Some r.
Proof.
  intros Hlen.
  destruct (while_loop (S (length names)) names requested s 1) as [r|] eqn:E.
  - now exists r.
  - exfalso. apply (candidates_overflow names requested).
    refine (while_loop_exhausted _ _ _ _ 1%N _ E). lia.
Qed.

Lemma incr_le_succ (k : N) : (incr k <= k + 1)%N.
Proof.
  unfold incr. destruct (k <? MAX_EXACT)%N; lia.
Qed.

(** The counter has advanced by at most the number of executions of the
    body. *)
Lemma while_loop_counter (fuel : nat) names requested s k nm c :
  while_loop fuel names requested s k = Some (nm, c) ->
  (c <= k + N.of_nat fuel)%N.
Proof.
  revert s k. induction fuel as [|fuel IH]; intros s k H; simpl in H;
    destruct (includes names s); try discriminate.
  - injection H as _ <-. lia.
  - apply IH in H. pose proof (incr_le_succ k). lia.
  - injection H as _ <-. lia.
Qed.

(** A name that fits and is not in the workbook is taken as it is. *)
Lemma resolve_unchanged (fuel : nat) names requested :
  length requested <= 31 -> ~ In requested names ->
  resolve fuel names requested = Some (requested, 1%N).
Proof.
  intros Hlen Hnew. unfold resolve. rewrite slice_short by lia.
  apply includes_not_In in Hnew.
  destruct fuel; simpl; now rewrite Hnew.
Qed.

(** Whenever the resolution ends, it ends on a name that is new to the
    workbook and fits. *)
Lemma resolve_sound fuel names requested nm c :
  resolve fuel names requested = Some (nm, c) ->
  ~ In nm names /\ length nm <= 31.
Proof.
  unfold resolve. intros H. split.
  - now apply while_loop_fresh in H.
  - apply while_loop_bounded in H; [tauto | | unfold MAX_EXACT; lia].
    pose proof (slice_length requested 31 ltac:(lia)). lia.
Qed.

(** The resolution of one name: it ends, on a name that is new to the
    workbook and fits, after at most one execution of the body more than
    the workbook has names. *)
Lemma resolve_total names requested :
  (N.of_nat (length names) < MAX_EXACT)%N ->
  exists nm c,
    (forall fuel, S (length names) <= fuel ->
                  resolve fuel names requested = Some (nm, c)) /\
    ~ In nm names /\ length nm <= 31 /\
    (1 <= c <= N.of_nat (length names) + 2)%N.
Proof.
  intros Hlen. unfold resolve.
  destruct (while_loop_terminates names requested (slice requested 0 31) Hlen)
    as [[nm c] Hr].
  exists nm, c. split; [|split; [|split]].
  - intros fuel Hfuel. now apply (while_loop_mono (S (length names))).
  - now apply while_loop_fresh in Hr.
  - apply while_loop_bounded in Hr; [tauto | | unfold MAX_EXACT; lia].
    pose proof (slice_length requested 31 ltac:(lia)). lia.
  - pose proof (while_loop_counter _ _ _ _ _ _ _ Hr).
    apply while_loop_bounded in Hr; [lia | | unfold MAX_EXACT; lia].
    pose proof (slice_length requested 31 ltac:(lia)). lia.
Qed.

Lemma distinct_and_bounded_snoc names nm :
  distinct_and_bounded names -> ~ In nm names -> length nm <= 31 ->
  distinct_and_bounded (names ++ [nm]).
Proof.
  intros [Hnd Hb] Hnew Hlen. split.
  - apply NoDup_app; [assumption | constructor; [intros [] | constructor] | ].
    intros x Hx [<-|[]]. contradiction.
  - apply Forall_app. split; [assumption | constructor; [assumption | constructor]].
Qed.

(** The result does not depend on the fuel. *)
Lemma resolve_deterministic fuel fuel' names requested r r' :
  resolve fuel names requested = Some r ->
  resolve fuel' names requested = Some r' -> r = r'.
Proof.
  unfold resolve. intros H H'.
  apply (while_loop_mono _ (Nat.max fuel fuel')) in H; [|lia].
  apply (while_loop_mono _ (Nat.max fuel fuel')) in H'; [|lia].
  congruence.
Qed.

(** A name that collides while its first candidate is free. *)
Lemma resolve_once names requested fuel :
  In (slice requested 0 31) names ->
  ~ In (candidate requested 1) names -> 1 <= fuel ->
  resolve fuel names requested = Some (candidate requested 1, 2%N).
Proof.
  intros Hin Hfree Hfuel. unfold resolve.
  destruct fuel as [|fuel]; [lia|]. cbn [while_loop].
  apply includes_In in Hin. rewrite Hin.
  apply includes_not_In in Hfree.
  destruct fuel; cbn [while_loop]; now rewrite Hfree.
Qed.

(** A name of 31 code units that collides, with its first candidate free. *)
Lemma resolve_full_length names requested fuel :
  length requested = 31 -> In requested names ->
  ~ In (firstn 29 requested ++ js "_1") names -> 1 <= fuel ->
  resolve fuel names requested = Some (firstn 29 requested ++ js "_1", 2%N).
Proof.
  intros Hlen Hin Hfree Hfuel.
  assert (Hc : candidate requested 1 = firstn 29 requested ++ js "_1").
  { rewrite candidate_prefix by (unfold MAX_EXACT; lia). reflexivity. }
  rewrite <- Hc in *. apply resolve_once; try assumption.
  now rewrite slice_short by lia.
Qed.

(** ** The extension filter and the extension regex *)

Lemma matches_ignoring_case_length (s pattern : jsstring) :
  matches_ignoring_case s pattern = true -> length s = length pattern.
Proof.
  revert pattern. induction s as [|c s IH]; intros [|p pattern] H;
    simpl in H; try discriminate; [reflexivity|].
  apply andb_true_iff in H. destruct H as [_ H]. simpl. f_equal. now apply IH.
Qed.

Lemma replace_extension_unfold (s : jsstring) :
  replace_extension s =
  if extension_regex_at s then []
  else match s with
       | [] => []
       | c :: s' => c :: replace_extension s'
       end.
Proof. destruct s; reflexivity. Qed.

(** The regex does not match both a string and the string with one more
    code unit in front: the dot would have to be an [x]. *)
Lemma extension_regex_at_cons (c : N) (s : jsstring) :
  extension_regex_at s = true -> extension_regex_at (c :: s) = false.
Proof.
  unfold extension_regex_at. intros H.
  apply orb_true_iff in H. apply orb_false_iff.
  destruct H as [H|H]; pose proof (matches_ignoring_case_length _ _ H) as Hlen.
  - split; apply not_true_is_false; intros H';
      apply matches_ignoring_case_length in H'; simpl in *; lia.
  - split; apply not_true_is_false; intros H'.
    + destruct s as [|e0 [|e1 [|e2 [|e3 [|]]]]]; try discriminate Hlen.
      cbn [matches_ignoring_case] in H, H'.
      apply andb_true_iff in H. destruct H as [H _].
      apply andb_true_iff in H'. destruct H' as [_ H'].
      apply andb_true_iff in H'. destruct H' as [H' _].
      apply N.eqb_eq in H, H'. rewrite H in H'. discriminate H'.
    + apply matches_ignoring_case_length in H'. simpl in *. lia.
Qed.

Lemma extension_regex_at_longer (stem s : jsstring) (c : N) :
  extension_regex_at s = true -> extension_regex_at (c :: stem ++ s) = false.
Proof.
  destruct stem as [|d stem]; [apply extension_regex_at_cons|].
  unfold extension_regex_at. intros H.
  apply orb_true_iff in H. apply orb_false_iff.
  split; apply not_true_is_false; intros H';
    apply matches_ignoring_case_length in H';
    destruct H as [H|H]; apply matches_ignoring_case_length in H;
    simpl in H'; rewrite length_app in H'; simpl in *; lia.
Qed.

(** Replacing the match removes exactly the extension, whatever its
    case. *)
Lemma replace_extension_strip (stem ext : jsstring) :
  extension_regex_at ext = true -> replace_extension (stem ++ ext) = stem.
Proof.
  intros H. induction stem as [|c stem IH].
  - simpl. rewrite replace_extension_unfold. now rewrite H.
  - rewrite replace_extension_unfold. simpl app.
    rewrite (extension_regex_at_longer stem ext c H). now rewrite IH.
Qed.

(** ** The merge loop *)

Section MergeFacts.

Context {ArrayBuffer WorkSheet Error : Type}.
Variable XLSX_read : ArrayBuffer -> @completion Error (@WorkBook WorkSheet).

Local Abbreviation upload := (@UploadedFile ArrayBuffer Error).
Local Abbreviation book := (@WorkBook WorkSheet).

(** The loop on any workbook under construction whose names are distinct
    and bounded: it ends, keeps the names distinct and bounded, and
    either every file was decoded and has its sheet, or some file threw
    and the exception left the loop. *)
Lemma for_loop_spec (uploaded : list upload) : forall (wb : book),
  distinct_and_bounded (SheetNames wb) ->
  (N.of_nat (length (SheetNames wb) + length uploaded) <= MAX_EXACT)%N ->
  exists wb' c,
    (forall fuel, length (SheetNames wb) + length uploaded <= fuel ->
                  for_loop XLSX_read fuel uploaded wb = Some (wb', c)) /\
    distinct_and_bounded (SheetNames wb') /\
    match c with
    | Normal _ =>
        length (SheetNames wb') = length (SheetNames wb) + length uploaded /\
        Forall (decodes XLSX_read) uploaded
    | Throw error =>
        Exists (fun f => decode XLSX_read f = Throw error) uploaded
    end.
Proof.
  induction uploaded as [|f rest IH]; intros wb Hok Hlen.
  - exists wb, (Normal tt). simpl. repeat split; try apply Hok; auto.
  - destruct (decode XLSX_read f) as [w|e] eqn:Ed.
    + destruct (resolve_total (SheetNames wb) (sheetName f))
        as (nm & c & Hres & Hnew & Hfit & _); [simpl in Hlen; lia|].
      set (wb1 := book_append_sheet wb (firstSheet w) nm).
      assert (Hnames : length (SheetNames wb1) = S (length (SheetNames wb))).
      { simpl. rewrite length_app. simpl. lia. }
      destruct (IH wb1) as (wb' & c' & Hrun & Hok' & Hc').
      * now apply distinct_and_bounded_snoc.
      * rewrite Hnames. simpl in Hlen. lia.
      * exists wb', c'. split; [|split; [assumption|]].
        -- intros fuel Hfuel. simpl in Hfuel.
           cbn [for_loop]. unfold loop_body. rewrite Ed, Hres by lia.
           apply Hrun. lia.
        -- destruct c'.
           ++ destruct Hc' as [Hn Hall]. split.
              ** rewrite Hn, Hnames. simpl. lia.
              ** constructor; [now exists w | assumption].
           ++ now apply Exists_cons_tl.
    + exists wb, (Throw e). split; [|split; [assumption|]].
      * intros fuel _. cbn [for_loop]. unfold loop_body. now rewrite Ed.
      * now apply Exists_cons_hd.
Qed.

(** The loop on names that are new to the workbook, distinct and within
    the bound, of files that all decode: every name is kept. *)
Lemma for_loop_unchanged (uploaded : list upload) : forall (wb : book),
  NoDup (SheetNames wb ++ map sheetName uploaded) ->
  Forall (fun f => length (sheetName f) <= 31) uploaded ->
  Forall (decodes XLSX_read) uploaded ->
  forall fuel, exists wb',
    for_loop XLSX_read fuel uploaded wb = Some (wb', Normal tt) /\
    SheetNames wb' = SheetNames wb ++ map sheetName uploaded.
Proof.
  induction uploaded as [|f rest IH]; intros wb Hnd Hfit Hdec fuel.
  - exists wb. simpl. now rewrite app_nil_r.
  - inversion Hfit as [|? ? Hf Hrest]; subst.
    inversion Hdec as [|? ? [w Hw] Hdrest]; subst.
    cbn [for_loop]. unfold loop_body. rewrite Hw.
    rewrite resolve_unchanged; [|assumption|].
    + set (wb1 := book_append_sheet wb (firstSheet w) (sheetName f)).
      destruct (IH wb1) with (fuel := fuel) as (wb' & Hrun & Hnames);
        try assumption.
      * simpl. rewrite <- app_assoc. exact Hnd.
      * exists wb'. split; [assumption|].
        rewrite Hnames. simpl. now rewrite <- app_assoc.
    + simpl in Hnd. apply NoDup_remove_2 in Hnd.
      intros Hin. apply Hnd. apply in_or_app. now left.
Qed.

Lemma mergeAndDownload_nonempty fuel (st : @AppState ArrayBuffer Error) :
  files st <> [] ->
  mergeAndDownload XLSX_read fuel st =
  match for_loop XLSX_read fuel (files st) book_new with
  | None => None
  | Some (newWorkbook, Normal _) =>
      Some (setIsProcessing false st,
            [XLSX_writeFile newWorkbook (js "merged.xlsx")])
  | Some (_, Throw error) =>
      Some (setIsProcessing false st,
            [console_error merge_error_log error; alert merge_error_alert])
  end.
Proof.
  intros Hne. unfold mergeAndDownload.
  destruct (files st); [contradiction | reflexivity].
Qed.

(** Whenever the loop ends, the names of the workbook are still
    distinct and bounded. *)
Lemma for_loop_safe (uploaded : list upload) : forall fuel (wb wb' : book) c,
  distinct_and_bounded (SheetNames wb) ->
  for_loop XLSX_read fuel uploaded wb = Some (wb', c) ->
  distinct_and_bounded (SheetNames wb').
Proof.
  induction uploaded as [|f rest IH]; intros fuel wb wb' c Hok H.
  - simpl in H. now injection H as <- _.
  - cbn [for_loop] in H. unfold loop_body in H.
    destruct (decode XLSX_read f) as [w|e].
    + destruct (resolve fuel (SheetNames wb) (sheetName f)) as [[nm k]|] eqn:Er;
        [|discriminate].
      apply resolve_sound in Er. destruct Er as [Hnew Hfit].
      refine (IH _ (book_append_sheet wb (firstSheet w) nm) _ _ _ H).
      now apply distinct_and_bounded_snoc.
    + now injection H as <- _.
Qed.

(** Whenever the loop ends on a list with a file that does not decode,
    it has ended by the exception of such a file. *)
Lemma for_loop_failure (uploaded : list upload) : forall fuel (wb wb' : book) c,
  Exists (fun f => ~ decodes XLSX_read f) uploaded ->
  for_loop XLSX_read fuel uploaded wb = Some (wb', c) ->
  exists error, c = Throw error /\
    Exists (fun f => decode XLSX_read f = Throw error) uploaded.
Proof.
  induction uploaded as [|f rest IH]; intros fuel wb wb' c Hex H.
  - inversion Hex.
  - cbn [for_loop] in H. unfold loop_body in H.
    destruct (decode XLSX_read f) as [w|e] eqn:Ed.
    + destruct (resolve fuel (SheetNames wb) (sheetName f)) as [[nm k]|];
        [|discriminate].
      inversion Hex as [? ? Hf|? ? Hrest]; subst.
      * exfalso. apply Hf. now exists w.
      * destruct (IH _ _ _ _ Hrest H) as (error & -> & Hthrow).
        exists error. split; [reflexivity | now apply Exists_cons_tl].
    + injection H as _ <-. exists e. split; [reflexivity|].
      now apply Exists_cons_hd.
Qed.

(** C1. For every list of uploaded files, whatever sheet names they
    request (duplicates, empty names, names of more than 31 code units),
    the names that the merge loop has put into the output workbook are
    pairwise distinct and of at most 31 code units each.  The loop ends
    on every list within the exact range of the counter, which holds
    every array (an array has fewer than 2^32 elements); when no file
    threw there is one name for each file. *)
Theorem merged_names_distinct_and_bounded (uploaded : list upload) :
  (forall fuel (wb : book) c,
     for_loop XLSX_read fuel uploaded book_new = Some (wb, c) ->
     NoDup (SheetNames wb) /\
     Forall (fun n => length n <= 31) (SheetNames wb)) /\
  ((N.of_nat (length uploaded) <= MAX_EXACT)%N ->
   exists (wb : book) c,
     (forall fuel, length uploaded <= fuel ->
                   for_loop XLSX_read fuel uploaded book_new = Some (wb, c)) /\
     (c = Normal tt -> length (SheetNames wb) = length uploaded)).
Proof.
  assert (Hnew : distinct_and_bounded (SheetNames (@book_new WorkSheet)))
    by (split; constructor).
  split.
  - intros fuel wb c H. exact (for_loop_safe _ _ _ _ _ Hnew H).
  - intros Hlen.
    destruct (for_loop_spec uploaded book_new Hnew Hlen)
      as (wb & c & Hrun & _ & Hc).
    exists wb, c. split; [assumption|].
    intros ->. apply Hc.
Qed.

(** C2. When some file of the list fails to decode the merge aborts:
    nothing is written (no sheet of a file decoded before the failure
    reaches an output), the exception is logged, one alert with the
    fixed message is shown, and the pending list is as before.  The
    merge does end, on every list within the exact range of the
    counter. *)
Theorem merge_aborts_on_decode_failure (st : @AppState ArrayBuffer Error) :
  Exists (fun f => ~ decodes XLSX_read f) (files st) ->
  (forall fuel st' effects,
     mergeAndDownload XLSX_read fuel st = Some (st', effects) ->
     exists error,
       Exists (fun f => decode XLSX_read f = Throw error) (files st) /\
       effects = [console_error merge_error_log error; alert merge_error_alert] /\
       (forall wb filename, ~ In (XLSX_writeFile wb filename) effects) /\
       files st' = files st /\ isProcessing st' = false) /\
  ((N.of_nat (length (files st)) <= MAX_EXACT)%N ->
   exists result,
     forall fuel, length (files st) <= fuel ->
                  mergeAndDownload XLSX_read fuel st = Some result).
Proof.
  intros Hfail.
  assert (Hne : files st <> []).
  { intros E. rewrite E in Hfail. inversion Hfail. }
  split.
  - intros fuel st' effects H.
    rewrite mergeAndDownload_nonempty in H by assumption.
    destruct (for_loop XLSX_read fuel (files st) book_new) as [[wb c]|] eqn:El;
      [|discriminate].
    destruct (for_loop_failure _ _ _ _ _ Hfail El) as (error & -> & Hthrow).
    injection H as <- <-. exists error. repeat split; try assumption.
    intros wb' fn [H|[H|[]]]; discriminate.
  - intros Hlen.
    destruct (for_loop_spec (files st) book_new) as (wb & c & Hrun & _).
    + split; constructor.
    + exact Hlen.
    + destruct c; eexists; intros fuel Hfuel;
        rewrite mergeAndDownload_nonempty by assumption;
        rewrite (Hrun fuel Hfuel); reflexivity.
Qed.

(** C5. When the requested names are pairwise distinct and of at most 31
    code units each, and every file decodes, the sheet names of the
    output are the requested names, unchanged and in the order of the
    list; the written workbook carries them. *)
Theorem distinct_short_names_unchanged (uploaded : list upload) :
  NoDup (map sheetName uploaded) ->
  Forall (fun f => length (sheetName f) <= 31) uploaded ->
  Forall (decodes XLSX_read) uploaded ->
  forall fuel, exists wb : book,
    for_loop XLSX_read fuel uploaded book_new = Some (wb, Normal tt) /\
    SheetNames wb = map sheetName uploaded /\
    forall st, files st = uploaded -> uploaded <> [] ->
      mergeAndDownload XLSX_read fuel st =
      Some (setIsProcessing false st, [XLSX_writeFile wb (js "merged.xlsx")]).
Proof.
  intros Hnd Hfit Hdec fuel.
  destruct (for_loop_unchanged uploaded book_new Hnd Hfit Hdec fuel)
    as (wb & Hrun & Hnames).
  exists wb. repeat split; try assumption.
  intros st Hst Hne. rewrite mergeAndDownload_nonempty by congruence.
  rewrite Hst. now rewrite Hrun.
Qed.

End MergeFacts.


(** C4. After a collision of the truncated name, the resolved name is the
    requested name cut to 31 less the length of the suffix, followed by
    the whole suffix [_k], for the first [k] whose candidate the workbook
    lacks; a requested name of 31 code units that collides once becomes a
    name of 31 code units that ends in [_1], its base two code units
    shorter. *)
Theorem suffix_candidate_truncates_base :
  (forall names requested,
     In (slice requested 0 31) names ->
     (N.of_nat (length names) < MAX_EXACT)%N ->
     exists nm c k,
       (forall fuel, S (length names) <= fuel ->
                     resolve fuel names requested = Some (nm, c)) /\
       (forall fuel r, resolve fuel names requested = Some r -> r = (nm, c)) /\
       (1 <= k)%N /\
       nm = firstn (31 - length (js "_" ++ toString k)) requested
            ++ js "_" ++ toString k /\
       ~ In nm names /\
       forall j, (1 <= j < k)%N ->
         In (firstn (31 - length (js "_" ++ toString j)) requested
             ++ js "_" ++ toString j) names) /\
  (forall fuel names requested,
     length requested = 31 -> In requested names ->
     ~ In (firstn 29 requested ++ js "_1") names -> 1 <= fuel ->
     resolve fuel names requested = Some (firstn 29 requested ++ js "_1", 2%N) /\
     length (firstn 29 requested ++ js "_1") = 31 /\
     length (firstn 29 requested) = length requested - 2).
Proof.
  split.
  - intros names requested Hin Hlen.
    destruct (resolve_total names requested Hlen)
      as (nm & c & Hres & Hnew & _ & _).
    pose proof (Hres _ (le_n _)) as Hrun.
    pose proof Hrun as Hfirst.
    apply while_loop_first_free in Hfirst;
      [|assumption|unfold MAX_EXACT; lia].
    destruct Hfirst as (k & Hk & Hnm & Hbelow).
    exists nm, c, k. split; [assumption|]. split; [|split; [lia|split; [|split]]].
    + intros fuel r Hr. exact (resolve_deterministic _ _ _ _ _ _ Hr Hrun).
    + rewrite Hnm. rewrite candidate_prefix by lia. reflexivity.
    + assumption.
    + intros j Hj. specialize (Hbelow j Hj).
      rewrite candidate_prefix in Hbelow by lia. exact Hbelow.
  - intros fuel names requested Hlen Hin Hfree Hfuel.
    split; [now apply resolve_full_length|].
    rewrite length_app, length_firstn, Hlen. simpl. lia.
Qed.

(** ** The pending list *)

Lemma last_append {A : Type} (a b : list A) (d : A) :
  b <> [] -> last (a ++ b) d = last b d.
Proof.
  intros Hb. induction a as [|x a IH]; [reflexivity|].
  simpl app. rewrite <- IH. simpl.
  destruct (a ++ b) eqn:E; [|reflexivity].
  apply app_eq_nil in E. destruct E as [_ E]. contradiction.
Qed.

Lemma Forall_filteri_from {A : Type} (P : A -> Prop) (f : A -> nat -> bool)
    (l : list A) : forall i, Forall P l -> Forall P (filteri_from i f l).
Proof.
  induction l as [|x l IH]; intros i H; simpl; [constructor|].
  inversion H; subst. destruct (f x i); [constructor|]; auto.
Qed.

Lemma Forall_mapi_from {A B : Type} (P : A -> Prop) (Q : B -> Prop)
    (f : A -> nat -> B) (l : list A) :
  (forall x i, P x -> Q (f x i)) ->
  forall i, Forall P l -> Forall Q (mapi_from i f l).
Proof.
  intros Hf. induction l as [|x l IH]; intros i H; simpl; [constructor|].
  inversion H; subst. constructor; auto.
Qed.

Section SelectionFacts.

Context {ArrayBuffer WorkSheet Error : Type}.
Variable XLSX_read : ArrayBuffer -> @completion Error (@WorkBook WorkSheet).

Local Abbreviation file_t := (@File ArrayBuffer Error).
Local Abbreviation upload := (@UploadedFile ArrayBuffer Error).
Local Abbreviation state := (@AppState ArrayBuffer Error).

Lemma accepted_spec (f : file_t) :
  accepted f = true <-> exists stem, has_extension (File_name f) stem.
Proof.
  unfold accepted, has_extension.
  rewrite orb_true_iff, !endsWith_spec. split.
  - intros [[stem H]|[stem H]]; exists stem; auto.
  - intros [stem [H|H]]; [left | right]; now exists stem.
Qed.

(** The sheet name of a kept file is what precedes its extension. *)
Lemma newFile_stem (f : file_t) :
  accepted f = true -> has_extension (File_name f) (sheetName (newFile f)).
Proof.
  intros H. apply accepted_spec in H. destruct H as [stem H].
  unfold has_extension in *. cbn [newFile sheetName].
  destruct H as [H|H]; rewrite H; rewrite replace_extension_strip;
    auto.
Qed.

Lemma handleFileSelect_files (selected : list file_t) (st : state) :
  files (handleFileSelect (Some selected) st) =
  files st ++ map newFile (filter accepted selected).
Proof. reflexivity. Qed.

Lemma setFiles_same (st : state) (update : list upload -> list upload) :
  update (files st) = files st -> setFiles update st = st.
Proof.
  destruct st as [fs p d]. unfold setFiles. simpl. now intros ->.
Qed.

Lemma handleFileSelect_within_limit (selected : list file_t) (st : state) :
  Forall within_31 (files st) -> short_stems selected ->
  Forall within_31 (files (handleFileSelect (Some selected) st)).
Proof.
  intros Hst Hsel. rewrite handleFileSelect_files.
  apply Forall_app. split; [assumption|].
  unfold short_stems in Hsel. rewrite Forall_forall in *. intros u Hu.
  apply in_map_iff in Hu. destruct Hu as (f & <- & Hf).
  apply filter_In in Hf. destruct Hf as [Hin Hacc].
  exact (Hsel f Hin (sheetName (newFile f)) (newFile_stem f Hacc)).
Qed.

Lemma handle_within_limit (st : state) (e : event) :
  Forall within_31 (files st) -> within_limit e ->
  Forall within_31 (files (handle st e)).
Proof.
  intros Hst He.
  destruct e as [[selected|]|dropped| | |index|index newName|]; cbn [handle].
  - now apply handleFileSelect_within_limit.
  - assumption.
  - unfold handleDrop. now apply handleFileSelect_within_limit.
  - assumption.
  - assumption.
  - now apply Forall_filteri_from.
  - apply (Forall_mapi_from within_31); [|assumption].
    intros u i Hu. destruct (i =? index); [exact He | exact Hu].
  - constructor.
Qed.

Lemma fold_handle_within_limit (events : list event) : forall st : state,
  Forall within_31 (files st) -> Forall within_limit events ->
  Forall within_31 (files (fold_left handle events st)).
Proof.
  induction events as [|e events IH]; intros st Hst Hev; simpl; [assumption|].
  inversion Hev; subst. apply IH; [|assumption].
  now apply handle_within_limit.
Qed.

(** C7. A selection keeps exactly the files whose name ends in [.xlsx]
    or [.xls], in the order of the selection, and appends them to the
    pending list; the others are left out and nothing else changes.  A
    kept file enters with its file name and with the part of the name
    before the extension as its sheet name.  No selection ([null])
    changes nothing. *)
Theorem selection_keeps_recognized_extensions (selected : list file_t) (st : state) :
  (forall f : file_t,
     accepted f = true <-> exists stem, has_extension (File_name f) stem) /\
  (exists kept,
     files (handleFileSelect (Some selected) st) = files st ++ kept /\
     map file kept = filter accepted selected /\
     Forall (fun u => name u = File_name (file u) /\
                      has_extension (File_name (file u)) (sheetName u)) kept) /\
  isProcessing (handleFileSelect (Some selected) st) = isProcessing st /\
  isDragOver (handleFileSelect (Some selected) st) = isDragOver st /\
  handleFileSelect None st = st.
Proof.
  split; [exact accepted_spec|]. split; [|repeat split].
  exists (map newFile (filter accepted selected)). split; [reflexivity|]. split.
  - rewrite map_map. simpl. apply map_id.
  - rewrite Forall_forall. intros u Hu.
    apply in_map_iff in Hu. destruct Hu as (f & <- & Hf).
    apply filter_In in Hf. destruct Hf as [_ Hacc].
    split; [reflexivity|]. now apply newFile_stem.
Qed.

(** C8 as the code has it.  Every pending sheet name has at most 31 code
    units as long as every selected or dropped file whose name ends in
    [.xlsx] or [.xls] has at most 31 code units before that extension and
    every rename passes at most 31 code units; a selection does not cut a
    name and [updateSheetName] stores what it is given. *)
Theorem pending_names_within_limit (events : list (@event ArrayBuffer Error)) :
  Forall within_limit events ->
  Forall (fun u => length (sheetName u) <= 31) (files (run events)).
Proof.
  intros H. apply (fold_handle_within_limit events initial_state);
    [constructor | assumption].
Qed.

(** C9. The merge of an empty list is a no-op: the state is as before,
    nothing is written, logged or shown.  (Of the two policies the
    specification allows, the code takes the second.) *)
Theorem merge_of_empty_list (fuel : nat) (st : state) :
  files st = [] ->
  writes_empty_workbook (mergeAndDownload XLSX_read fuel st) \/
  is_noop st (mergeAndDownload XLSX_read fuel st).
Proof.
  intros H. right. unfold is_noop, mergeAndDownload. now rewrite H.
Qed.

(** C10. The filter of a selection compares the case, the regex that
    strips the extension does not.  A file whose name ends in [.XLSX] or
    [.XLS] is dropped by the selection although the regex would remove
    that extension from its name; every file that a selection adds has
    a name that ends in lowercase [.xlsx] or [.xls]. *)
Theorem uppercase_extension_dropped (st : state) :
  (forall (f : file_t) stem,
     File_name f = stem ++ js ".XLSX" \/ File_name f = stem ++ js ".XLS" ->
     accepted f = false /\
     handleFileSelect (Some [f]) st = st /\
     replace_extension (File_name f) = stem) /\
  (forall selected u,
     In u (files (handleFileSelect (Some selected) st)) ->
     In u (files st) \/ exists stem, has_extension (name u) stem).
Proof.
  split.
  - intros f stem Hname.
    assert (Hacc : accepted f = false).
    { apply not_true_is_false. intros Hacc. apply accepted_spec in Hacc.
      destruct Hacc as [stem' Hext]. unfold has_extension in Hext.
      assert (Hlast : last (File_name f) 0%N = 120%N \/ last (File_name f) 0%N = 115%N).
      { destruct Hext as [-> | ->]; rewrite last_append by discriminate; auto. }
      destruct Hname as [Hn|Hn]; rewrite Hn in Hlast;
        rewrite last_append in Hlast by discriminate;
        destruct Hlast as [Hl|Hl]; discriminate Hl. }
    split; [assumption|]. split.
    + unfold handleFileSelect. simpl. rewrite Hacc. simpl.
      apply setFiles_same. apply app_nil_r.
    + destruct Hname as [-> | ->]; now apply replace_extension_strip.
  - intros selected u Hin. rewrite handleFileSelect_files in Hin.
    apply in_app_or in Hin. destruct Hin as [Hin|Hin]; [now left|right].
    apply in_map_iff in Hin. destruct Hin as (f & <- & Hf).
    apply filter_In in Hf. destruct Hf as [_ Hacc].
    now apply accepted_spec.
Qed.

End SelectionFacts.

(** ** Duplicate names *)

Section DuplicateFacts.

Context {ArrayBuffer WorkSheet Error : Type}.
Variable XLSX_read : ArrayBuffer -> @completion Error (@WorkBook WorkSheet).

Local Abbreviation file_t := (@File ArrayBuffer Error).
Local Abbreviation upload := (@UploadedFile ArrayBuffer Error).
Local Abbreviation book := (@WorkBook WorkSheet).

(** One turn of the loop for a file that decodes. *)
Lemma for_loop_cons fuel (u : upload) rest (wb : book) w nm c :
  decode XLSX_read u = Normal w ->
  resolve fuel (SheetNames wb) (sheetName u) = Some (nm, c) ->
  for_loop XLSX_read fuel (u :: rest) wb =
  for_loop XLSX_read fuel rest (book_append_sheet wb (firstSheet w) nm).
Proof.
  intros Hd Hr. cbn [for_loop]. unfold loop_body. now rewrite Hd, Hr.
Qed.

End DuplicateFacts.

(** ** The statements on sample data *)

(** Five files of which two pairs request the same name, one name being
    empty and one of 32 code units. *)
Lemma merged_names_distinct_and_bounded_witness :
  (N.of_nat (length sample_uploads) <= MAX_EXACT)%N /\
  (exists wb c,
     (forall fuel, length sample_uploads <= fuel ->
                   for_loop sample_read fuel sample_uploads book_new = Some (wb, c)) /\
     (c = Normal tt -> length (SheetNames wb) = length sample_uploads)) /\
  (forall wb c,
     for_loop sample_read 5 sample_uploads book_new = Some (wb, c) ->
     NoDup (SheetNames wb) /\ Forall (fun n => length n <= 31) (SheetNames wb)).
Proof.
  assert (Hbound : (N.of_nat (length sample_uploads) <= MAX_EXACT)%N)
    by (vm_compute; discriminate).
  split; [exact Hbound|]. split.
  - exact (proj2 (merged_names_distinct_and_bounded sample_read sample_uploads)
             Hbound).
  - exact (proj1 (merged_names_distinct_and_bounded sample_read sample_uploads) 5).
Defined.

(** The second of three files does not decode. *)
Lemma merge_aborts_on_decode_failure_witness :
  Exists (fun f => ~ decodes sample_read f)
         (files (sample_state sample_uploads_broken)) /\
  (N.of_nat (length (files (sample_state sample_uploads_broken))) <= MAX_EXACT)%N /\
  (exists result,
     forall fuel, length (files (sample_state sample_uploads_broken)) <= fuel ->
       mergeAndDownload sample_read fuel (sample_state sample_uploads_broken)
       = Some result) /\
  (forall st' effects,
     mergeAndDownload sample_read 3 (sample_state sample_uploads_broken)
     = Some (st', effects) ->
     exists error,
       Exists (fun f => decode sample_read f = Throw error)
              (files (sample_state sample_uploads_broken)) /\
       effects = [console_error merge_error_log error; alert merge_error_alert] /\
       (forall wb filename, ~ In (XLSX_writeFile wb filename) effects) /\
       files st' = files (sample_state sample_uploads_broken) /\
       isProcessing st' = false).
Proof.
  assert (Hbound : (N.of_nat (length (files (sample_state sample_uploads_broken)))
                    <= MAX_EXACT)%N) by (vm_compute; discriminate).
  assert (Hfail : Exists (fun f => ~ decodes sample_read f)
                         (files (sample_state sample_uploads_broken))).
  { apply Exists_cons_tl. apply Exists_cons_hd. intros [w Hw]. discriminate Hw. }
  split; [exact Hfail|]. split; [exact Hbound|]. split.
  - exact (proj2 (merge_aborts_on_decode_failure sample_read
                    (sample_state sample_uploads_broken) Hfail) Hbound).
  - exact (proj1 (merge_aborts_on_decode_failure sample_read
                    (sample_state sample_uploads_broken) Hfail) 3).
Defined.



(** A name of 31 letters that is already in the workbook. *)
Lemma suffix_candidate_truncates_base_witness :
  length (js name_31) = 31 /\
  In (js name_31) [js name_31] /\
  ~ In (firstn 29 (js name_31) ++ js "_1") [js name_31] /\
  resolve 1 [js name_31] (js name_31)
  = Some (js "abcdefghijklmnopqrstuvwxyzABC_1", 2%N) /\
  length (js "abcdefghijklmnopqrstuvwxyzABC_1") = 31 /\
  length (js "abcdefghijklmnopqrstuvwxyzABC") = length (js name_31) - 2.
Proof.
  assert (Hlen : length (js name_31) = 31) by reflexivity.
  assert (Hin : In (js name_31) [js name_31]) by (left; reflexivity).
  assert (Hfree : ~ In (firstn 29 (js name_31) ++ js "_1") [js name_31]).
  { intros [H|[]]. discriminate H. }
  split; [exact Hlen|]. split; [exact Hin|]. split; [exact Hfree|].
  exact (proj2 suffix_candidate_truncates_base 1 [js name_31] (js name_31)
           Hlen Hin Hfree (le_n 1)).
Defined.

Lemma distinct_short_names_unchanged_witness :
  NoDup (map sheetName sample_uploads_distinct) /\
  Forall (fun f => length (sheetName f) <= 31) sample_uploads_distinct /\
  Forall (decodes sample_read) sample_uploads_distinct /\
  forall fuel, exists wb,
    for_loop sample_read fuel sample_uploads_distinct book_new
    = Some (wb, Normal tt) /\
    SheetNames wb = [js "Jan"; js "Feb"; js "Mar"].
Proof.
  assert (Hnd : NoDup (map sheetName sample_uploads_distinct)).
  { repeat (constructor; [simpl; intuition discriminate|]). constructor. }
  assert (Hfit : Forall (fun f => length (sheetName f) <= 31) sample_uploads_distinct).
  { repeat (constructor; [simpl; lia|]). constructor. }
  assert (Hdec : Forall (decodes sample_read) sample_uploads_distinct).
  { repeat (constructor; [eexists; reflexivity|]). constructor. }
  split; [exact Hnd|]. split; [exact Hfit|]. split; [exact Hdec|].
  intros fuel.
  destruct (distinct_short_names_unchanged sample_read
              sample_uploads_distinct Hnd Hfit Hdec fuel)
    as (wb & Hrun & Hnames & _).
  exists wb. split; [exact Hrun | exact Hnames].
Defined.

(** A file whose name has 32 letters before [.xlsx] enters the pending
    list with a sheet name of 32 code units. *)
Lemma selection_keeps_long_name :
  ~ Forall (fun u => length (sheetName u) <= 31)
      (files (run [Select (Some [sample_file name_32_xlsx [1%N]])])).
Proof.
  intros H. inversion H as [|u l Hu Hl]; subst.
  vm_compute in Hu. lia.
Qed.

Lemma pending_names_within_limit_witness :
  Forall within_limit sample_session /\
  Forall (fun u => length (sheetName u) <= 31) (files (run sample_session)).
Proof.
  assert (H : Forall within_limit sample_session).
  { unfold sample_session.
    constructor; [|constructor; [exact I|constructor;
      [|constructor; [simpl; lia|constructor;
        [exact I|constructor; [exact I|constructor]]]]]].
    - repeat (constructor;
        [intros stem [Hs|Hs]; apply (f_equal (@length N)) in Hs;
         rewrite length_app in Hs; simpl in Hs; lia|]).
      constructor.
    - repeat (constructor;
        [intros stem [Hs|Hs]; apply (f_equal (@length N)) in Hs;
         rewrite length_app in Hs; simpl in Hs; lia|]).
      constructor. }
  split; [exact H|].
  exact (pending_names_within_limit sample_session H).
Defined.

Lemma merge_of_empty_list_witness :
  files (sample_state []) = [] /\
  (writes_empty_workbook (mergeAndDownload sample_read 0 (sample_state [])) \/
   is_noop (sample_state []) (mergeAndDownload sample_read 0 (sample_state []))).
Proof.
  split; [reflexivity|].
  exact (merge_of_empty_list sample_read 0 (sample_state []) eq_refl).
Defined.

Lemma uppercase_extension_dropped_witness :
  (File_name (sample_file "REPORT.XLSX" [1%N]) = js "REPORT" ++ js ".XLSX" \/
   File_name (sample_file "REPORT.XLSX" [1%N]) = js "REPORT" ++ js ".XLS") /\
  accepted (sample_file "REPORT.XLSX" [1%N]) = false /\
  handleFileSelect (Some [sample_file "REPORT.XLSX" [1%N]]) initial_state
  = initial_state /\
  replace_extension (File_name (sample_file "REPORT.XLSX" [1%N])) = js "REPORT".
Proof.
  split; [left; reflexivity|].
  exact (proj1 (uppercase_extension_dropped initial_state)
           (sample_file "REPORT.XLSX" [1%N]) (js "REPORT") (or_introl eq_refl)).
Defined.

(** ** Removing and renaming entries *)

Lemma filteri_from_above {A : Type} (index : nat) (l : list A) : forall i,
  index < i -> filteri_from i (fun _ j => negb (j =? index)) l = l.
Proof.
  induction l as [|x l IH]; intros i Hi; [reflexivity|].
  cbn [filteri_from]. destruct (i =? index) eqn:E.
  - apply Nat.eqb_eq in E. lia.
  - cbn [negb]. f_equal. apply IH. lia.
Qed.

Lemma filteri_from_remove {A : Type} (l : list A) : forall i k,
  filteri_from i (fun _ j => negb (j =? i + k)) l
  = firstn k l ++ skipn (S k) l.
Proof.
  induction l as [|x l IH]; intros i k.
  - now destruct k.
  - cbn [filteri_from]. destruct k as [|k].
    + rewrite Nat.add_0_r, Nat.eqb_refl. cbn [negb firstn skipn app].
      apply filteri_from_above. lia.
    + destruct (i =? i + S k) eqn:E; [apply Nat.eqb_eq in E; lia|].
      cbn [negb firstn skipn app]. f_equal.
      replace (i + S k) with (S i + k) by lia. apply IH.
Qed.

Lemma nth_error_mapi_from {A B : Type} (f : A -> nat -> B) (l : list A) :
  forall i j,
    nth_error (mapi_from i f l) j
    = option_map (fun x => f x (i + j)) (nth_error l j).
Proof.
  induction l as [|x l IH]; intros i j.
  - now destruct j.
  - destruct j as [|j]; cbn [mapi_from nth_error option_map].
    + now rewrite Nat.add_0_r.
    + rewrite IH. now replace (S i + j) with (i + S j) by lia.
Qed.

Lemma mapi_from_ext {A B : Type} (f g : A -> nat -> B) (l : list A) :
  forall i, (forall x j, f x j = g x j) -> mapi_from i f l = mapi_from i g l.
Proof.
  induction l as [|x l IH]; intros i H; [reflexivity|].
  cbn [mapi_from]. now rewrite H, (IH (S i) H).
Qed.

Lemma mapi_from_compose {A B C : Type} (f : A -> nat -> B) (g : B -> nat -> C)
    (l : list A) : forall i,
  mapi_from i g (mapi_from i f l) = mapi_from i (fun x j => g (f x j) j) l.
Proof.
  induction l as [|x l IH]; intros i; [reflexivity|].
  cbn [mapi_from]. now rewrite IH.
Qed.

Lemma map_mapi_from {A B C : Type} (f : A -> nat -> B) (g : B -> C) (h : A -> C)
    (l : list A) : forall i,
  (forall x j, g (f x j) = h x) -> map g (mapi_from i f l) = map h l.
Proof.
  induction l as [|x l IH]; intros i H; [reflexivity|].
  cbn [mapi_from map]. now rewrite H, (IH (S i) H).
Qed.

Lemma mapi_from_id {A : Type} (f : A -> nat -> A) (l : list A) : forall i,
  (forall x j, i <= j < i + length l -> f x j = x) -> mapi_from i f l = l.
Proof.
  induction l as [|x l IH]; intros i H; [reflexivity|].
  cbn [mapi_from]. rewrite H by (simpl; lia). f_equal.
  apply IH. intros y j Hj. apply H. simpl. lia.
Qed.

Section ListFacts.

Context {ArrayBuffer Error : Type}.

Local Abbreviation file_t := (@File ArrayBuffer Error).
Local Abbreviation upload := (@UploadedFile ArrayBuffer Error).
Local Abbreviation state := (@AppState ArrayBuffer Error).

Lemma updateSheetName_files (index : nat) (newName : jsstring) (st : state) :
  files (updateSheetName index newName st)
  = mapi_from 0 (fun f i => if i =? index then renamed newName f else f)
      (files st).
Proof. reflexivity. Qed.

(** X1. [removeFile] takes out the entry at the index and nothing else:
    the entries before it and after it stay, in their order, so the list
    is shorter by one; an index from the length of the list on changes
    nothing.  The flags stay. *)
Theorem removeFile_takes_one_entry (index : nat) (st : state) :
  files (removeFile index st)
  = firstn index (files st) ++ skipn (S index) (files st) /\
  (index < length (files st) ->
   S (length (files (removeFile index st))) = length (files st)) /\
  (length (files st) <= index -> removeFile index st = st) /\
  isProcessing (removeFile index st) = isProcessing st /\
  isDragOver (removeFile index st) = isDragOver st.
Proof.
  assert (Hfiles : files (removeFile index st)
                   = firstn index (files st) ++ skipn (S index) (files st)).
  { unfold removeFile, setFiles. cbn [files].
    exact (filteri_from_remove (files st) 0 index). }
  split; [exact Hfiles|]. split; [|split; [|split; reflexivity]].
  - intros Hlt. rewrite Hfiles, length_app, length_firstn, length_skipn. lia.
  - intros Hge. apply setFiles_same.
    change (files (removeFile index st) = files st). rewrite Hfiles.
    rewrite firstn_all2 by assumption. rewrite skipn_all2 by lia.
    apply app_nil_r.
Qed.

(** X2. [updateSheetName] writes the new sheet name into the entry at the
    index and changes nothing else: that entry keeps its name and its
    file, every other entry is as before, the list keeps its length and
    the names and files of all entries; an index from the length of the
    list on changes nothing. *)
Theorem updateSheetName_changes_one_name (index : nat) (newName : jsstring)
    (st : state) :
  (forall j,
     nth_error (files (updateSheetName index newName st)) j
     = if j =? index
       then option_map (renamed newName) (nth_error (files st) j)
       else nth_error (files st) j) /\
  length (files (updateSheetName index newName st)) = length (files st) /\
  map name (files (updateSheetName index newName st)) = map name (files st) /\
  map file (files (updateSheetName index newName st)) = map file (files st) /\
  (length (files st) <= index -> updateSheetName index newName st = st).
Proof.
  rewrite updateSheetName_files. split; [|split; [|split; [|split]]].
  - intros j. rewrite nth_error_mapi_from. cbn [Nat.add].
    destruct (j =? index); [reflexivity|].
    now destruct (nth_error (files st) j).
  - rewrite <- (length_map name), <- (length_map name (files st)). f_equal.
    apply map_mapi_from. intros x j. now destruct (j =? index).
  - apply map_mapi_from. intros x j. now destruct (j =? index).
  - apply map_mapi_from. intros x j. now destruct (j =? index).
  - intros Hge. apply setFiles_same. apply mapi_from_id.
    intros x j Hj. destruct (j =? index) eqn:E; [|reflexivity].
    apply Nat.eqb_eq in E. lia.
Qed.

(** X3. Of two renames of the same entry the later one counts, and
    renames of different entries can be done in either order. *)
Theorem updateSheetName_later_wins (i j : nat) (a b : jsstring) (st : state) :
  updateSheetName i a (updateSheetName i b st) = updateSheetName i a st /\
  (i <> j ->
   updateSheetName i a (updateSheetName j b st)
   = updateSheetName j b (updateSheetName i a st)).
Proof.
  split.
  - unfold updateSheetName, setFiles. cbn [files isProcessing isDragOver].
    f_equal. rewrite mapi_from_compose. apply mapi_from_ext.
    intros x k. now destruct (k =? i).
  - intros Hne. unfold updateSheetName, setFiles.
    cbn [files isProcessing isDragOver]. f_equal.
    rewrite !mapi_from_compose. apply mapi_from_ext.
    intros x k. destruct (k =? i) eqn:Ei, (k =? j) eqn:Ej; try reflexivity.
    apply Nat.eqb_eq in Ei, Ej. lia.
Qed.

(** X4. Two selections one after the other add what one selection of
    both lists adds, and a selection only appends: the entries that were
    pending are the first entries afterwards, unchanged. *)
Theorem selections_append (first second : list file_t) (st : state) :
  handleFileSelect (Some second) (handleFileSelect (Some first) st)
  = handleFileSelect (Some (first ++ second)) st /\
  firstn (length (files st)) (files (handleFileSelect (Some first) st))
  = files st.
Proof.
  split.
  - unfold handleFileSelect, setFiles. cbn [files isProcessing isDragOver].
    f_equal. now rewrite filter_app, map_app, app_assoc.
  - rewrite handleFileSelect_files.
    rewrite firstn_app, Nat.sub_diag, firstn_all. cbn [firstn].
    apply app_nil_r.
Qed.

Lemma Forall_from_selection_new (selected : list file_t) :
  Forall from_selection (map newFile (filter accepted selected)).
Proof.
  rewrite Forall_forall. intros u Hu.
  apply in_map_iff in Hu. destruct Hu as (f & <- & Hf).
  apply filter_In in Hf. destruct Hf as [_ Hacc].
  split; [reflexivity | exact Hacc].
Qed.

Lemma handle_from_selection (st : state) (e : event) :
  Forall from_selection (files st) /\ isProcessing st = false ->
  Forall from_selection (files (handle st e)) /\
  isProcessing (handle st e) = false.
Proof.
  intros [Hst Hp].
  destruct e as [[selected|]|dropped| | |index|index newName|]; cbn [handle].
  - split; [|exact Hp]. rewrite handleFileSelect_files.
    apply Forall_app. split; [assumption | apply Forall_from_selection_new].
  - now split.
  - split; [|exact Hp]. unfold handleDrop. rewrite handleFileSelect_files.
    apply Forall_app. split; [assumption | apply Forall_from_selection_new].
  - now split.
  - now split.
  - split; [|exact Hp]. now apply Forall_filteri_from.
  - split; [|exact Hp].
    apply (Forall_mapi_from from_selection); [|assumption].
    intros u i Hu. now destruct (i =? index).
  - split; [constructor | exact Hp].
Qed.

Lemma fold_handle_from_selection (events : list event) : forall st : state,
  Forall from_selection (files st) /\ isProcessing st = false ->
  Forall from_selection (files (fold_left handle events st)) /\
  isProcessing (fold_left handle events st) = false.
Proof.
  induction events as [|e events IH]; intros st Hst; [exact Hst|].
  cbn [fold_left]. apply IH. now apply handle_from_selection.
Qed.

(** X5. Whatever the user selects, drops, renames, removes or clears,
    every pending entry shows the name of its own file, that name ends in
    [.xlsx] or [.xls], and no handler of the list sets the flag
    [isProcessing]. *)
Theorem pending_entries_from_selection (events : list (@event ArrayBuffer Error)) :
  Forall (fun u => name u = File_name (file u) /\
                   exists stem, has_extension (File_name (file u)) stem)
         (files (run events)) /\
  isProcessing (run events) = false.
Proof.
  destruct (fold_handle_from_selection events initial_state) as [Hall Hp].
  { split; [constructor | reflexivity]. }
  split; [|exact Hp].
  apply (Forall_impl _ (P := from_selection)); [|exact Hall].
  intros u [Hname Hacc]. split; [exact Hname|].
  now apply accepted_spec.
Qed.

End ListFacts.

(** ** The extension regex on any name *)

Lemma matches_ignoring_case_spec (s pattern : jsstring) :
  matches_ignoring_case s pattern = true
  <-> map canonicalize s = map canonicalize pattern.
Proof.
  revert pattern. induction s as [|c s IH]; intros [|p pattern];
    cbn [matches_ignoring_case map]; try (split; congruence).
  rewrite andb_true_iff, N.eqb_eq, IH.
  split; [intros [-> ->]; reflexivity | intros [= -> ->]; auto].
Qed.

Lemma extension_regex_at_spec (s : jsstring) :
  extension_regex_at s = true
  <-> map canonicalize s = js ".XLSX" \/ map canonicalize s = js ".XLS".
Proof.
  unfold extension_regex_at.
  rewrite orb_true_iff, !matches_ignoring_case_spec. reflexivity.
Qed.

(** X6. The regex replace on any name: a name that ends in [.xlsx] or
    [.xls], in any mix of upper and lower case, loses exactly that
    ending; every other name comes back as it is. *)
Theorem replace_extension_any_name (s : jsstring) :
  (exists stem ext,
     s = stem ++ ext /\
     (map canonicalize ext = js ".XLSX" \/ map canonicalize ext = js ".XLS") /\
     replace_extension s = stem) \/
  ((forall stem ext,
      s = stem ++ ext ->
      map canonicalize ext <> js ".XLSX" /\ map canonicalize ext <> js ".XLS") /\
   replace_extension s = s).
Proof.
  induction s as [|c s IH].
  - right. split; [|reflexivity].
    intros stem ext H. symmetry in H. apply app_eq_nil in H.
    destruct H as [_ ->]. split; discriminate.
  - rewrite replace_extension_unfold.
    destruct (extension_regex_at (c :: s)) eqn:E.
    + left. exists [], (c :: s). split; [reflexivity|].
      split; [now apply extension_regex_at_spec | reflexivity].
    + destruct IH as [(stem & ext & Hs & Hext & Hr)|[Hnone Hr]].
      * left. exists (c :: stem), ext. split; [now rewrite Hs|].
        split; [assumption | now rewrite Hr].
      * right. split; [|now rewrite Hr].
        intros stem ext H. destruct stem as [|d stem].
        -- cbn [app] in H. subst ext.
           assert (Hno : ~ (map canonicalize (c :: s) = js ".XLSX" \/
                            map canonicalize (c :: s) = js ".XLS")).
           { intros Hm. apply extension_regex_at_spec in Hm. congruence. }
           tauto.
        -- injection H as _ H. exact (Hnone stem ext H).
Qed.

(** ** The sheets of the output *)

Lemma resolve_shape fuel names requested nm c :
  resolve fuel names requested = Some (nm, c) -> resolved_from requested nm.
Proof.
  intros H. unfold resolve in H.
  destruct (includes names (slice requested 0 31)) eqn:E.
  - right. apply includes_In in E.
    apply (while_loop_first_free _ _ _ _ _ _ _ E) in H;
      [|unfold MAX_EXACT; lia].
    destruct H as (k & Hk & -> & _). exists k. split; [lia|].
    now rewrite candidate_prefix by lia.
  - left. destruct fuel; cbn [while_loop] in H; rewrite E in H;
      injection H as <- _; now apply slice_prefix.
Qed.

Section OutputFacts.

Context {ArrayBuffer WorkSheet Error : Type}.
Variable XLSX_read : ArrayBuffer -> @completion Error (@WorkBook WorkSheet).

Local Abbreviation upload := (@UploadedFile ArrayBuffer Error).
Local Abbreviation book := (@WorkBook WorkSheet).
Local Abbreviation state := (@AppState ArrayBuffer Error).

Lemma property_get_other (obj : list (jsstring * option WorkSheet)) k v key :
  k <> key -> property_get ((k, v) :: obj) key = property_get obj key.
Proof.
  intros Hne. cbn [property_get].
  destruct (jsstring_eqb k key) eqn:E; [|reflexivity].
  apply jsstring_eqb_eq in E. contradiction.
Qed.

Lemma property_get_same (obj : list (jsstring * option WorkSheet)) k v :
  property_get ((k, v) :: obj) k = v.
Proof.
  cbn [property_get].
  now rewrite (proj2 (jsstring_eqb_eq k k) eq_refl).
Qed.

(** Appending under a new name leaves the sheets that were there and adds
    the new one at the end. *)
Lemma book_append_sheet_sheets (wb : book) ws nm :
  ~ In nm (SheetNames wb) ->
  map (property_get (Sheets (book_append_sheet wb ws nm)))
      (SheetNames (book_append_sheet wb ws nm))
  = map (property_get (Sheets wb)) (SheetNames wb) ++ [ws].
Proof.
  intros Hnew. cbn [book_append_sheet SheetNames Sheets].
  rewrite map_app. cbn [map]. rewrite property_get_same. f_equal.
  apply map_ext_in. intros n Hn. apply property_get_other.
  intros ->. contradiction.
Qed.

Lemma for_loop_app fuel (a b : list upload) : forall wb : book,
  for_loop XLSX_read fuel (a ++ b) wb =
  match for_loop XLSX_read fuel a wb with
  | Some (wb1, Normal _) => for_loop XLSX_read fuel b wb1
  | Some (wb1, Throw error) => Some (wb1, Throw error)
  | None => None
  end.
Proof.
  induction a as [|f a IH]; intros wb; [reflexivity|].
  cbn [app for_loop].
  destruct (loop_body XLSX_read fuel f wb) as [[wb1 [u|e]]|];
    [apply IH | reflexivity | reflexivity].
Qed.

(** The loop only adds names, at the end. *)
Lemma for_loop_extends (uploaded : list upload) : forall fuel (wb wb' : book) c,
  for_loop XLSX_read fuel uploaded wb = Some (wb', c) ->
  exists rest, SheetNames wb' = SheetNames wb ++ rest.
Proof.
  induction uploaded as [|f rest IH]; intros fuel wb wb' c H.
  - cbn [for_loop] in H. injection H as <- _. exists []. now rewrite app_nil_r.
  - cbn [for_loop] in H. unfold loop_body in H.
    destruct (decode XLSX_read f) as [w|e].
    + destruct (resolve fuel (SheetNames wb) (sheetName f)) as [[nm k]|];
        [|discriminate].
      apply IH in H. destruct H as [more H]. exists (nm :: more).
      rewrite H. cbn [book_append_sheet SheetNames].
      now rewrite <- app_assoc.
    + injection H as <- _. exists []. now rewrite app_nil_r.
Qed.

(** The loop on files that decode: sheet after sheet, the name comes from
    the requested name of the file and the content is the first sheet of
    the file. *)
Lemma for_loop_rows (uploaded : list upload) (decoded : list book) :
  Forall2 (fun u w => decode XLSX_read u = Normal w) uploaded decoded ->
  forall fuel (wb wb' : book) c,
    distinct_and_bounded (SheetNames wb) ->
    for_loop XLSX_read fuel uploaded wb = Some (wb', c) ->
    c = Normal tt /\
    exists new,
      SheetNames wb' = SheetNames wb ++ new /\
      Forall2 resolved_from (map sheetName uploaded) new /\
      map (property_get (Sheets wb')) (SheetNames wb')
      = map (property_get (Sheets wb)) (SheetNames wb) ++ map firstSheet decoded.
Proof.
  induction 1 as [|u w uploaded decoded Hd Hrest IH]; intros fuel wb wb' c Hok H.
  - cbn [for_loop] in H. injection H as <- <-. split; [reflexivity|].
    exists []. cbn [map]. rewrite !app_nil_r. repeat split. constructor.
  - cbn [for_loop] in H. unfold loop_body in H. rewrite Hd in H.
    destruct (resolve fuel (SheetNames wb) (sheetName u)) as [[nm k]|] eqn:Er;
      [|discriminate].
    pose proof (resolve_shape _ _ _ _ _ Er) as Hshape.
    apply resolve_sound in Er. destruct Er as [Hnew Hfit].
    apply IH in H; [|now apply distinct_and_bounded_snoc].
    destruct H as [-> (new & Hnames & Hshapes & Hsheets)].
    split; [reflexivity|]. exists (nm :: new). split; [|split].
    + rewrite Hnames. cbn [book_append_sheet SheetNames].
      now rewrite <- app_assoc.
    + cbn [map]. now constructor.
    + rewrite Hsheets, book_append_sheet_sheets by assumption.
      cbn [map]. now rewrite <- app_assoc.
Qed.

Lemma Forall2_decodes (uploaded : list upload) (decoded : list book) :
  Forall2 (fun u w => decode XLSX_read u = Normal w) uploaded decoded ->
  Forall (decodes XLSX_read) uploaded.
Proof.
  induction 1 as [|u w ? ? Hd _ IH]; constructor; [now exists w | exact IH].
Qed.

Lemma decodes_or_not (uploaded : list upload) :
  Forall (decodes XLSX_read) uploaded \/
  Exists (fun f => ~ decodes XLSX_read f) uploaded.
Proof.
  induction uploaded as [|f rest [IH|IH]].
  - left. constructor.
  - destruct (decode XLSX_read f) as [w|e] eqn:Ed.
    + left. constructor; [now exists w | exact IH].
    + right. apply Exists_cons_hd. intros [w Hw]. congruence.
  - right. now apply Exists_cons_tl.
Qed.

Lemma book_new_ok : distinct_and_bounded (SheetNames (@book_new WorkSheet)).
Proof. split; constructor. Qed.

(** X7. When every file decodes, the merge writes one workbook under the
    name [merged.xlsx] with one sheet for each file, in the order of the
    list: the name of the i-th sheet is made from the sheet name requested
    for the i-th file (its first 31 code units, or a cut of it with a
    suffix [_k]) and its content is the first sheet of the i-th file. *)
Theorem merged_sheets_correspond (st : state) (decoded : list book) :
  Forall2 (fun u w => decode XLSX_read u = Normal w) (files st) decoded ->
  files st <> [] ->
  (N.of_nat (length (files st)) <= MAX_EXACT)%N ->
  exists wb : book,
    (forall fuel, length (files st) <= fuel ->
       mergeAndDownload XLSX_read fuel st
       = Some (setIsProcessing false st, [XLSX_writeFile wb (js "merged.xlsx")])) /\
    Forall2 resolved_from (map sheetName (files st)) (SheetNames wb) /\
    map (property_get (Sheets wb)) (SheetNames wb) = map firstSheet decoded /\
    length (SheetNames wb) = length (files st).
Proof.
  intros Hdec Hne Hlen.
  destruct (for_loop_spec XLSX_read (files st) book_new book_new_ok Hlen)
    as (wb & c & Hrun & _ & _).
  pose proof (Hrun _ (le_n _)) as Hone.
  destruct (for_loop_rows _ _ Hdec _ _ _ _ book_new_ok Hone)
    as [-> (new & Hnames & Hshapes & Hsheets)].
  cbn [book_new SheetNames Sheets map app] in Hnames, Hsheets.
  exists wb. rewrite Hnames. split; [|split; [|split]].
  - intros fuel Hfuel. rewrite mergeAndDownload_nonempty by assumption.
    now rewrite (Hrun fuel Hfuel).
  - exact Hshapes.
  - rewrite <- Hnames. exact Hsheets.
  - apply Forall2_length in Hshapes. now rewrite length_map in Hshapes.
Qed.

(** X8. The outcomes of a merge.  The pending list and the drag flag are
    never changed.  A workbook is written exactly when the list is not
    empty and every file decodes; the alert is shown exactly when some
    file does not decode; after a merge of a list that is not empty the
    flag [isProcessing] is off. *)
Theorem download_iff_all_decode (st : state) :
  (N.of_nat (length (files st)) <= MAX_EXACT)%N ->
  exists st' effects,
    (forall fuel, length (files st) <= fuel ->
       mergeAndDownload XLSX_read fuel st = Some (st', effects)) /\
    files st' = files st /\ isDragOver st' = isDragOver st /\
    ((exists wb filename, In (XLSX_writeFile wb filename) effects)
     <-> files st <> [] /\ Forall (decodes XLSX_read) (files st)) /\
    ((exists message, In (alert message) effects)
     <-> Exists (fun f => ~ decodes XLSX_read f) (files st)) /\
    (files st <> [] -> isProcessing st' = false) /\
    (files st = [] -> st' = st).
Proof.
  intros Hlen.
  destruct (files st) as [|f rest] eqn:Ef.
  - exists st, []. split; [|split; [|split; [|split; [|split; [|split]]]]];
      auto.
    + intros fuel _. unfold mergeAndDownload. now rewrite Ef.
    + split; [intros (wb & fn & []) | intros [H _]; now contradiction H].
    + split; [intros (m & []) | intros H; inversion H].
    + intros H. now contradiction H.
  - assert (Hne : files st <> []) by (rewrite Ef; discriminate).
    rewrite <- Ef in *.
    destruct (for_loop_spec XLSX_read (files st) book_new book_new_ok Hlen)
      as (wb & c & Hrun & _ & Hc).
    destruct c as [u|error].
    + exists (setIsProcessing false st), [XLSX_writeFile wb (js "merged.xlsx")].
      destruct Hc as [_ Hall].
      split; [|split; [|split; [|split; [|split; [|split]]]]];
        try reflexivity.
      * intros fuel Hfuel. rewrite mergeAndDownload_nonempty by assumption.
        now rewrite (Hrun fuel Hfuel).
      * split; [now intros _ | intros _; do 2 eexists; left; reflexivity].
      * split.
        -- intros (m & [H|[]]). discriminate H.
        -- intros Hex. apply Exists_exists in Hex.
           destruct Hex as (g & Hin & Hg). rewrite Forall_forall in Hall.
           now contradiction (Hg (Hall g Hin)).
      * intros H. now contradiction Hne.
    + exists (setIsProcessing false st),
        [console_error merge_error_log error; alert merge_error_alert].
      split; [|split; [|split; [|split; [|split; [|split]]]]];
        try reflexivity.
      * intros fuel Hfuel. rewrite mergeAndDownload_nonempty by assumption.
        now rewrite (Hrun fuel Hfuel).
      * split.
        -- intros (wb' & fn & [H|[H|[]]]); discriminate H.
        -- intros [_ Hall]. apply Exists_exists in Hc.
           destruct Hc as (g & Hin & Hg). rewrite Forall_forall in Hall.
           destruct (Hall g Hin) as [w Hw]. congruence.
      * split.
        -- intros _. apply Exists_exists in Hc.
           destruct Hc as (g & Hin & Hg). apply Exists_exists.
           exists g. split; [assumption|]. intros [w Hw]. congruence.
        -- intros _. eexists. right. left. reflexivity.
      * intros H. now contradiction Hne.
Qed.

(** X9. The exception that is logged is the one of the first file that
    does not decode, whatever files come after it; only the files before
    it count for the loop to end. *)
Theorem first_failure_reported (st : state) (before after : list upload)
    (f : upload) (error : Error) :
  files st = before ++ f :: after ->
  Forall (decodes XLSX_read) before ->
  decode XLSX_read f = Throw error ->
  (N.of_nat (length before) <= MAX_EXACT)%N ->
  forall fuel, length before <= fuel ->
    mergeAndDownload XLSX_read fuel st
    = Some (setIsProcessing false st,
            [console_error merge_error_log error; alert merge_error_alert]).
Proof.
  intros Hfiles Hdec Hf Hlen fuel Hfuel.
  rewrite mergeAndDownload_nonempty
    by (rewrite Hfiles; intros E; apply app_eq_nil in E; destruct E; discriminate).
  rewrite Hfiles, for_loop_app.
  destruct (for_loop_spec XLSX_read before book_new book_new_ok Hlen)
    as (wb & c & Hrun & _ & Hc).
  rewrite (Hrun fuel Hfuel). destruct c as [u|e].
  - cbn [for_loop]. unfold loop_body. now rewrite Hf.
  - exfalso. apply Exists_exists in Hc. destruct Hc as (g & Hin & Hg).
    rewrite Forall_forall in Hdec. destruct (Hdec g Hin) as [w Hw]. congruence.
Qed.

End OutputFacts.

(** ** How the names depend on the list *)

(** A short name with a suffix is the name followed by the suffix. *)
Lemma candidate_short (s : jsstring) (k : N) :
  length s <= 14 -> (k <= MAX_EXACT)%N ->
  candidate s k = s ++ js "_" ++ toString k.
Proof.
  intros Hs Hk. rewrite candidate_prefix by assumption.
  pose proof (suffix_of_length k Hk). rewrite firstn_all2 by lia.
  reflexivity.
Qed.

Lemma candidate_not_base (s : jsstring) (k : N) :
  length s <= 14 -> (k <= MAX_EXACT)%N -> candidate s k <> s.
Proof.
  intros Hs Hk H. rewrite candidate_short in H by assumption.
  apply (f_equal (@length N)) in H. rewrite length_app in H.
  cbn [js list_ascii_of_string map app length] in H. lia.
Qed.

Lemma numbered_length s m : length (numbered s m) = S m.
Proof. unfold numbered. cbn [length]. now rewrite length_map, length_seq. Qed.

Lemma numbered_In s m nm :
  In nm (numbered s m) <->
  nm = s \/ exists j, 1 <= j <= m /\ nm = candidate s (N.of_nat j).
Proof.
  unfold numbered. cbn [In]. rewrite in_map_iff. split.
  - intros [H|(j & H & Hj)]; [now left|right].
    apply in_seq in Hj. exists j. split; [lia | now symmetry].
  - intros [H|(j & Hj & H)]; [now left|right].
    exists j. split; [now symmetry | apply in_seq; lia].
Qed.

Lemma numbered_succ s m :
  numbered s (S m) = numbered s m ++ [candidate s (N.of_nat (S m))].
Proof.
  unfold numbered. rewrite seq_S, map_app. reflexivity.
Qed.

(** One more request of [s] gets the next number. *)
Lemma resolve_numbered (s : jsstring) (m fuel : nat) :
  length s <= 14 -> (N.of_nat (S m) < MAX_EXACT)%N -> S (S m) <= fuel ->
  exists c, resolve fuel (numbered s m) s
            = Some (candidate s (N.of_nat (S m)), c).
Proof.
  intros Hs Hm Hfuel.
  destruct (resolve_total (numbered s m) s) as (nm & c & Hres & Hnew & _ & _).
  { rewrite numbered_length. exact Hm. }
  rewrite numbered_length in Hres. specialize (Hres fuel Hfuel).
  exists c. rewrite Hres. do 2 f_equal.
  pose proof Hres as Hfirst. unfold resolve in Hfirst.
  apply while_loop_first_free in Hfirst; [|idtac|unfold MAX_EXACT; lia].
  - destruct Hfirst as (k & Hk & -> & Hbelow).
    destruct (N.lt_trichotomy k (N.of_nat (S m))) as [Hlt|[->|Hgt]];
      [|reflexivity|].
    + exfalso. apply Hnew. apply numbered_In. right.
      exists (N.to_nat k). split; [lia | now rewrite N2Nat.id].
    + exfalso. specialize (Hbelow (N.of_nat (S m)) ltac:(lia)).
      apply numbered_In in Hbelow. destruct Hbelow as [H|(j & Hj & H)].
      * apply candidate_not_base in H; [assumption | assumption | lia].
      * apply candidate_inj in H. lia.
  - rewrite slice_short by lia. apply numbered_In. now left.
Qed.

Section NameFacts.

Context {ArrayBuffer WorkSheet Error : Type}.
Variable XLSX_read : ArrayBuffer -> @completion Error (@WorkBook WorkSheet).

Local Abbreviation file_t := (@File ArrayBuffer Error).
Local Abbreviation upload := (@UploadedFile ArrayBuffer Error).
Local Abbreviation book := (@WorkBook WorkSheet).
Local Abbreviation state := (@AppState ArrayBuffer Error).

(** X10. Files added at the end of the list do not change the names of
    the sheets before them: the names given for a list are the first
    names given for the list with more files after it. *)
Theorem earlier_names_stable (first more : list upload) :
  (N.of_nat (length (first ++ more)) <= MAX_EXACT)%N ->
  exists (wb1 wb2 : book) c1 c2 rest,
    (forall fuel, length (first ++ more) <= fuel ->
       for_loop XLSX_read fuel first book_new = Some (wb1, c1) /\
       for_loop XLSX_read fuel (first ++ more) book_new = Some (wb2, c2)) /\
    SheetNames wb2 = SheetNames wb1 ++ rest.
Proof.
  intros Hlen. rewrite length_app in *.
  destruct (for_loop_spec XLSX_read first book_new) as (wb1 & c1 & Hrun1 & Hok1 & Hc1).
  { split; constructor. }
  { cbn [book_new SheetNames length]. lia. }
  cbn [book_new SheetNames length Nat.add] in Hrun1.
  destruct c1 as [u|e].
  - destruct Hc1 as [Hn1 _]. cbn [book_new SheetNames length Nat.add] in Hn1.
    destruct (for_loop_spec XLSX_read more wb1 Hok1) as (wb2 & c2 & Hrun2 & _ & _).
    { rewrite Hn1. exact Hlen. }
    rewrite Hn1 in Hrun2.
    destruct (for_loop_extends XLSX_read more _ _ _ _ (Hrun2 _ (le_n _)))
      as [rest Hrest].
    exists wb1, wb2, (Normal u), c2, rest. split; [|exact Hrest].
    intros fuel Hfuel. split; [apply Hrun1; lia|].
    rewrite for_loop_app, (Hrun1 fuel) by lia. apply Hrun2. exact Hfuel.
  - exists wb1, wb1, (Throw e), (Throw e), []. split; [|now rewrite app_nil_r].
    intros fuel Hfuel. split; [apply Hrun1; lia|].
    now rewrite for_loop_app, (Hrun1 fuel) by lia.
Qed.

(** The names the loop gives depend on the workbook only through its
    names and on the files only through the names they request. *)
Lemma for_loop_names_only {ArrayBuffer' WorkSheet' Error' : Type}
    (XLSX_read' : ArrayBuffer' -> @completion Error' (@WorkBook WorkSheet'))
    (uploaded : list upload) :
  forall (uploaded' : list (@UploadedFile ArrayBuffer' Error')) fuel
         (wb wb1 : book) (wb' wb1' : @WorkBook WorkSheet') c c',
    map sheetName uploaded = map sheetName uploaded' ->
    Forall (decodes XLSX_read) uploaded ->
    Forall (decodes XLSX_read') uploaded' ->
    SheetNames wb = SheetNames wb' ->
    for_loop XLSX_read fuel uploaded wb = Some (wb1, c) ->
    for_loop XLSX_read' fuel uploaded' wb' = Some (wb1', c') ->
    SheetNames wb1 = SheetNames wb1'.
Proof.
  induction uploaded as [|f rest IH];
    intros [|f' rest'] fuel wb wb1 wb' wb1' c c' Hreq Hd Hd' Hsame H H';
    try discriminate Hreq.
  - cbn [for_loop] in H, H'. injection H as <- _. injection H' as <- _.
    exact Hsame.
  - cbn [map] in Hreq. injection Hreq as Hf Hreq.
    inversion Hd as [|? ? [w Hw] Hdr]; subst.
    inversion Hd' as [|? ? [w' Hw'] Hdr']; subst.
    cbn [for_loop] in H, H'. unfold loop_body in H, H'.
    rewrite Hw in H. rewrite Hw' in H'. rewrite <- Hsame, <- Hf in H'.
    destruct (resolve fuel (SheetNames wb) (sheetName f)) as [[nm k]|];
      [|discriminate].
    refine (IH rest' fuel _ wb1 _ wb1' c c' Hreq Hdr Hdr' _ H H').
    cbn [book_append_sheet SheetNames]. now rewrite Hsame.
Qed.

(** X11. The sheet names of the output depend only on the sheet names
    that the entries request, in their order: two lists of files that
    decode and request the same names get the same sheet names, whatever
    the files are called and whatever they hold. *)
Theorem names_depend_on_requests (uploaded uploaded' : list upload) :
  map sheetName uploaded = map sheetName uploaded' ->
  Forall (decodes XLSX_read) uploaded ->
  Forall (decodes XLSX_read) uploaded' ->
  (N.of_nat (length uploaded) <= MAX_EXACT)%N ->
  exists wb wb' : book,
    (forall fuel, length uploaded <= fuel ->
       for_loop XLSX_read fuel uploaded book_new = Some (wb, Normal tt) /\
       for_loop XLSX_read fuel uploaded' book_new = Some (wb', Normal tt)) /\
    SheetNames wb = SheetNames wb'.
Proof.
  intros Hreq Hd Hd' Hlen.
  assert (Hsame : length uploaded' = length uploaded).
  { rewrite <- (length_map sheetName uploaded'), <- Hreq. apply length_map. }
  destruct (for_loop_spec XLSX_read uploaded book_new) as (wb & c & Hrun & _ & Hc);
    [split; constructor | exact Hlen |].
  destruct (for_loop_spec XLSX_read uploaded' book_new) as (wb' & c' & Hrun' & _ & Hc');
    [split; constructor | rewrite Hsame; exact Hlen |].
  cbn [book_new SheetNames length Nat.add] in Hrun, Hrun'.
  rewrite Hsame in Hrun'.
  assert (Hn : c = Normal tt).
  { destruct c as [[]|e]; [reflexivity|]. exfalso.
    apply Exists_exists in Hc. destruct Hc as (g & Hin & Hg).
    rewrite Forall_forall in Hd. destruct (Hd g Hin) as [w Hw]. congruence. }
  assert (Hn' : c' = Normal tt).
  { destruct c' as [[]|e]; [reflexivity|]. exfalso.
    apply Exists_exists in Hc'. destruct Hc' as (g & Hin & Hg).
    rewrite Forall_forall in Hd'. destruct (Hd' g Hin) as [w Hw]. congruence. }
  subst c c'. exists wb, wb'. split.
  - intros fuel Hfuel. split; [now apply Hrun | now apply Hrun'].
  - exact (for_loop_names_only XLSX_read uploaded uploaded' _ _ _ _ _ _ _
             Hreq Hd Hd' eq_refl (Hrun _ (le_n _)) (Hrun' _ (le_n _))).
Qed.

(** X12. Two requested names that agree on their first 31 code units
    collide, also when they differ further on: the first sheet gets those
    31 code units, the second the first 29 of them and [_1] (unless the
    31 code units themselves end in [_1] after the 29). *)
Theorem names_equal_on_31_collide (u1 u2 : upload) (w1 w2 : book) (fuel : nat) :
  firstn 31 (sheetName u1) = firstn 31 (sheetName u2) ->
  firstn 31 (sheetName u2) <> firstn 29 (sheetName u2) ++ js "_1" ->
  decode XLSX_read u1 = Normal w1 -> decode XLSX_read u2 = Normal w2 ->
  1 <= fuel ->
  exists wb : book,
    for_loop XLSX_read fuel [u1; u2] book_new = Some (wb, Normal tt) /\
    SheetNames wb
    = [firstn 31 (sheetName u1); firstn 29 (sheetName u2) ++ js "_1"].
Proof.
  intros Hsame Hfree Hd1 Hd2 Hfuel.
  assert (Hc : candidate (sheetName u2) 1 = firstn 29 (sheetName u2) ++ js "_1").
  { rewrite candidate_prefix by (unfold MAX_EXACT; lia). reflexivity. }
  eexists. split.
  - rewrite (for_loop_cons XLSX_read fuel u1 _ _ w1
               (firstn 31 (sheetName u1)) 1%N Hd1).
    2:{ unfold resolve. rewrite slice_prefix by lia.
        destruct fuel; reflexivity. }
    rewrite (for_loop_cons XLSX_read fuel u2 _ _ w2
               (firstn 29 (sheetName u2) ++ js "_1") 2%N Hd2).
    2:{ rewrite <- Hc. apply resolve_once; [| |assumption].
        - rewrite slice_prefix by lia. left. exact Hsame.
        - rewrite Hc. intros [H|[]]. apply Hfree. congruence. }
    reflexivity.
  - reflexivity.
Qed.

Lemma for_loop_numbered (s : jsstring) (uploaded : list upload) :
  length s <= 14 ->
  Forall (fun u => sheetName u = s) uploaded ->
  Forall (decodes XLSX_read) uploaded ->
  forall (m fuel : nat) (wb : book),
    SheetNames wb = numbered s m ->
    (N.of_nat (S m + length uploaded) <= MAX_EXACT)%N ->
    S m + length uploaded <= fuel ->
    exists wb' : book,
      for_loop XLSX_read fuel uploaded wb = Some (wb', Normal tt) /\
      SheetNames wb' = numbered s (m + length uploaded).
Proof.
  intros Hs. induction uploaded as [|u rest IH];
    intros Hreq Hdec m fuel wb Hwb Hlen Hfuel.
  - exists wb. cbn [for_loop length]. now rewrite Nat.add_0_r.
  - inversion Hreq as [|? ? Hu Hrest]; subst.
    inversion Hdec as [|? ? [w Hw] Hdrest]; subst.
    cbn [length] in Hlen, Hfuel.
    destruct (resolve_numbered (sheetName u) m fuel Hs) as [c Hres]; [lia|lia|].
    rewrite <- Hwb in Hres.
    rewrite (for_loop_cons XLSX_read fuel u rest wb w _ c Hw Hres).
    destruct (IH Hrest Hdrest (S m) fuel
                (book_append_sheet wb (firstSheet w)
                   (candidate (sheetName u) (N.of_nat (S m)))))
      as (wb' & Hrun & Hnames).
    + cbn [book_append_sheet SheetNames]. now rewrite Hwb, numbered_succ.
    + lia.
    + lia.
    + exists wb'. split; [exact Hrun|].
      rewrite Hnames. cbn [length]. f_equal. lia.
Qed.

(** X13. Files that all request the same short name (at most 14 code
    units, so that no suffix is cut into it) are numbered in the order of
    the list: the first keeps the name, the next ones get it with [_1],
    [_2], [_3] and so on. *)
Theorem same_name_numbered (s : jsstring) (u : upload) (rest : list upload) :
  length s <= 14 ->
  Forall (fun f => sheetName f = s) (u :: rest) ->
  Forall (decodes XLSX_read) (u :: rest) ->
  (N.of_nat (length (u :: rest)) <= MAX_EXACT)%N ->
  exists wb : book,
    (forall fuel, length (u :: rest) <= fuel ->
       for_loop XLSX_read fuel (u :: rest) book_new = Some (wb, Normal tt)) /\
    SheetNames wb
    = s :: map (fun j => s ++ js "_" ++ toString (N.of_nat j))
               (seq 1 (length rest)).
Proof.
  intros Hs Hreq Hdec Hlen.
  destruct (for_loop_spec XLSX_read (u :: rest) book_new)
    as (wb & c & Hrun & _ & _); [split; constructor | exact Hlen |].
  cbn [book_new SheetNames Nat.add] in Hrun.
  pose proof (Hrun _ (le_n _)) as Hone.
  inversion Hreq as [|? ? Hu Hrest]; subst.
  inversion Hdec as [|? ? [w Hw] Hdrest]; subst.
  cbn [length] in Hlen, Hone.
  rewrite (for_loop_cons XLSX_read _ u rest book_new w (sheetName u) 1%N Hw)
    in Hone by (apply resolve_unchanged; [lia | intros []]).
  destruct (for_loop_numbered (sheetName u) rest Hs Hrest Hdrest 0
              (S (length rest))
              (book_append_sheet book_new (firstSheet w) (sheetName u)) eq_refl)
    as (wb2 & Hrun2 & Hnames2);
    [cbn [Nat.add]; exact Hlen | cbn [Nat.add]; lia |].
  cbn [Nat.add] in Hone. rewrite Hrun2 in Hone. injection Hone as <- <-.
  exists wb2. split; [exact Hrun|].
  rewrite Hnames2. cbn [Nat.add]. unfold numbered. f_equal.
  apply map_ext_in. intros j Hj. apply in_seq in Hj.
  apply candidate_short; [assumption | lia].
Qed.

End NameFacts.

(** ** From the selection to the download *)

Section SessionFacts.

Context {ArrayBuffer WorkSheet Error : Type}.
Variable XLSX_read : ArrayBuffer -> @completion Error (@WorkBook WorkSheet).

Local Abbreviation file_t := (@File ArrayBuffer Error).
Local Abbreviation upload := (@UploadedFile ArrayBuffer Error).
Local Abbreviation book := (@WorkBook WorkSheet).
Local Abbreviation state := (@AppState ArrayBuffer Error).

Lemma Forall2_stems (kept : list file_t) :
  Forall (fun f => accepted f = true) kept ->
  Forall2 (fun f nm => has_extension (File_name f) nm) kept
          (map sheetName (map newFile kept)).
Proof.
  induction 1 as [|f kept Hf _ IH]; cbn [map]; constructor;
    [now apply newFile_stem | exact IH].
Qed.

(** X14. Select, then merge.  When the kept files of a selection have
    names that differ before the extension and have at most 31 code units
    there, and all decode, the merge of that selection writes a workbook
    in which every sheet is named as its file without the extension, in
    the order of the selection. *)
Theorem selection_merges_under_file_names (selected : list file_t) :
  NoDup (map (fun f => replace_extension (File_name f)) (filter accepted selected)) ->
  Forall (fun f => length (replace_extension (File_name f)) <= 31)
         (filter accepted selected) ->
  Forall (fun f => decodes XLSX_read (newFile f)) (filter accepted selected) ->
  filter accepted selected <> [] ->
  forall fuel, exists wb : book,
    mergeAndDownload XLSX_read fuel (handleFileSelect (Some selected) initial_state)
    = Some (setIsProcessing false (handleFileSelect (Some selected) initial_state),
            [XLSX_writeFile wb (js "merged.xlsx")]) /\
    Forall2 (fun f nm => has_extension (File_name f) nm)
            (filter accepted selected) (SheetNames wb).
Proof.
  intros Hnd Hfit Hdec Hne fuel.
  set (kept := filter accepted selected) in *.
  assert (Hfiles : files (handleFileSelect (Some selected) (@initial_state ArrayBuffer Error))
                   = map newFile kept) by reflexivity.
  destruct (for_loop_unchanged XLSX_read (map newFile kept) book_new) with (fuel := fuel)
    as (wb & Hrun & Hnames).
  - cbn [book_new SheetNames app]. now rewrite map_map.
  - rewrite Forall_map. exact Hfit.
  - rewrite Forall_map. exact Hdec.
  - exists wb. split.
    + rewrite mergeAndDownload_nonempty.
      * now rewrite Hfiles, Hrun.
      * rewrite Hfiles. intros E. apply map_eq_nil in E. contradiction.
    + rewrite Hnames. cbn [book_new SheetNames app].
      apply Forall2_stems. apply Forall_forall. intros f Hf.
      unfold kept in Hf. apply filter_In in Hf. tauto.
Qed.

(** X15. The merge button.  It is in the page only with a pending list
    that is not empty, where its [disabled] is just [isProcessing]; a
    click that reaches [mergeAndDownload] therefore finds files and no
    merge under way, and always ends in one download or in one alert,
    never in the silent return of line 58. *)
Theorem clicked_merge_acts (st : state) :
  (list_rendered st = true -> merge_button_disabled st = isProcessing st) /\
  (merge_button_clickable st = true ->
   (N.of_nat (length (files st)) <= MAX_EXACT)%N ->
   files st <> [] /\ isProcessing st = false /\
   exists st' effects,
     (forall fuel, length (files st) <= fuel ->
        mergeAndDownload XLSX_read fuel st = Some (st', effects)) /\
     ((exists wb, effects = [XLSX_writeFile wb (js "merged.xlsx")]) \/
      (exists error, effects = [console_error merge_error_log error;
                                alert merge_error_alert]))).
Proof.
  unfold merge_button_clickable, merge_button_disabled, list_rendered. split.
  - intros H. apply Nat.ltb_lt in H.
    destruct (length (files st) =? 0) eqn:E;
      [apply Nat.eqb_eq in E; lia | apply orb_false_r].
  - intros H Hlen. apply andb_true_iff in H. destruct H as [Hr Hd].
    apply Nat.ltb_lt in Hr. apply negb_true_iff, orb_false_iff in Hd.
    destruct Hd as [Hp _].
    assert (Hne : files st <> []) by (intros E; rewrite E in Hr; simpl in Hr; lia).
    split; [exact Hne|]. split; [exact Hp|].
    destruct (for_loop_spec XLSX_read (files st) book_new) as (wb & c & Hrun & _ & _);
      [split; constructor | exact Hlen |].
    destruct c as [u|error].
    + exists (setIsProcessing false st), [XLSX_writeFile wb (js "merged.xlsx")].
      split; [|left; now exists wb].
      intros fuel Hfuel. rewrite mergeAndDownload_nonempty by assumption.
      now rewrite (Hrun fuel Hfuel).
    + exists (setIsProcessing false st),
        [console_error merge_error_log error; alert merge_error_alert].
      split; [|right; now exists error].
      intros fuel Hfuel. rewrite mergeAndDownload_nonempty by assumption.
      now rewrite (Hrun fuel Hfuel).
Qed.

End SessionFacts.

(** ** Indices after a removal *)

Lemma rename_after_remove_from {A : Type} (rename : A -> A) (i j : nat)
    (l : list A) : forall s t,
  (s <= i /\ t = s) \/ (i < s /\ S t = s) ->
  mapi_from t (fun f k => if k =? j then rename f else f)
    (filteri_from s (fun _ k => negb (k =? i)) l)
  = filteri_from s (fun _ k => negb (k =? i))
      (mapi_from s (fun f k => if k =? (if j <? i then j else S j)
                               then rename f else f) l).
Proof.
  induction l as [|x l IH]; intros s t Hst; [reflexivity|].
  cbn [mapi_from filteri_from]. destruct (s =? i) eqn:Esi; cbn [negb].
  - apply Nat.eqb_eq in Esi. apply IH. lia.
  - apply Nat.eqb_neq in Esi. cbn [mapi_from]. f_equal.
    + destruct (j <? i) eqn:Eji;
        [apply Nat.ltb_lt in Eji | apply Nat.ltb_ge in Eji];
        destruct (t =? j) eqn:Et, (s =? j) eqn:Es, (s =? S j) eqn:Es';
        try reflexivity;
        repeat match goal with
               | H : (_ =? _) = true |- _ => apply Nat.eqb_eq in H
               | H : (_ =? _) = false |- _ => apply Nat.eqb_neq in H
               end; lia.
    + apply IH. lia.
Qed.

Section IndexFacts.

Context {ArrayBuffer Error : Type}.

Local Abbreviation state := (@AppState ArrayBuffer Error).

(** X16. A removal moves the later entries one place down, so a rename by
    index after a removal is the rename of the entry that had the next
    index before: renaming the entry [j] after removing the entry [i]
    gives the state that removing [i] gives after renaming [j] (for [j]
    before [i]) or [j + 1] (for [j] from [i] on). *)
Theorem rename_after_remove (i j : nat) (newName : jsstring) (st : state) :
  updateSheetName j newName (removeFile i st)
  = removeFile i (updateSheetName (if j <? i then j else S j) newName st).
Proof.
  unfold updateSheetName, removeFile, setFiles.
  cbn [files isProcessing isDragOver]. f_equal.
  apply (rename_after_remove_from (renamed newName) i j (files st) 0 0). lia.
Qed.

End IndexFacts.

(** ** What is kept of a requested name *)

(** X17. The sheet name of a file always begins with the first 14 code
    units of the name requested for it (with the whole requested name when
    that is shorter): the cut for a suffix never goes below 14, the
    longest suffix having 17 code units. *)
Theorem resolved_name_keeps_14 (names : list jsstring) (requested : jsstring) :
  (N.of_nat (length names) < MAX_EXACT)%N ->
  exists nm c tail,
    (forall fuel, S (length names) <= fuel ->
                  resolve fuel names requested = Some (nm, c)) /\
    nm = firstn 14 requested ++ tail.
Proof.
  intros Hlen.
  destruct (resolve_total names requested Hlen) as (nm & c & Hres & _).
  pose proof (Hres _ (le_n _)) as Hone. unfold resolve in Hone.
  assert (Hcut : forall n, 14 <= n ->
            firstn n requested
            = firstn 14 requested ++ skipn 14 (firstn n requested)).
  { intros n Hn. rewrite <- (firstn_skipn 14 (firstn n requested)) at 1.
    f_equal. rewrite firstn_firstn. f_equal. lia. }
  destruct (includes names (slice requested 0 31)) eqn:E.
  - apply includes_In in E.
    apply (while_loop_first_free _ _ _ _ _ _ _ E) in Hone;
      [|unfold MAX_EXACT; lia].
    destruct Hone as (k & Hk & Hnm & _).
    pose proof (suffix_of_length k ltac:(lia)) as Hsuf.
    exists nm, c,
      (skipn 14 (firstn (31 - length (suffix_of k)) requested) ++ suffix_of k).
    split; [exact Hres|].
    rewrite Hnm, candidate_prefix by lia.
    rewrite (Hcut (31 - length (suffix_of k))) at 1 by lia.
    now rewrite <- app_assoc.
  - exists nm, c, (skipn 14 (firstn 31 requested)). split; [exact Hres|].
    destruct (S (length names)); cbn [while_loop] in Hone; rewrite E in Hone;
      injection Hone as <- _; rewrite slice_prefix by lia;
      apply (Hcut 31); lia.
Qed.

(** ** The further statements on sample data *)

Lemma removeFile_takes_one_entry_witness :
  1 < length (files sample_pending) /\
  files (removeFile 1 sample_pending)
  = [sample_upload "a.xlsx" "a" [1%N]; sample_upload "c.xlsx" "c" [3%N];
     sample_upload "d.xlsx" "d" [4%N]] /\
  S (length (files (removeFile 1 sample_pending))) = length (files sample_pending) /\
  removeFile 4 sample_pending = sample_pending.
Proof.
  assert (Hin : 1 < length (files sample_pending)) by (simpl; lia).
  assert (Hout : length (files sample_pending) <= 4) by (simpl; lia).
  split; [exact Hin|]. split; [|split].
  - exact (proj1 (removeFile_takes_one_entry 1 sample_pending)).
  - exact (proj1 (proj2 (removeFile_takes_one_entry 1 sample_pending)) Hin).
  - exact (proj1 (proj2 (proj2 (removeFile_takes_one_entry 4 sample_pending))) Hout).
Defined.

Lemma updateSheetName_changes_one_name_witness :
  length (files sample_pending) <= 7 /\
  nth_error (files (updateSheetName 2 (js "Totals") sample_pending)) 2
  = Some (renamed (js "Totals") (sample_upload "c.xlsx" "c" [3%N])) /\
  nth_error (files (updateSheetName 2 (js "Totals") sample_pending)) 3
  = Some (sample_upload "d.xlsx" "d" [4%N]) /\
  updateSheetName 7 (js "Totals") sample_pending = sample_pending.
Proof.
  assert (Hout : length (files sample_pending) <= 7) by (simpl; lia).
  split; [exact Hout|]. split; [|split].
  - exact (proj1 (updateSheetName_changes_one_name 2 (js "Totals") sample_pending) 2).
  - exact (proj1 (updateSheetName_changes_one_name 2 (js "Totals") sample_pending) 3).
  - exact (proj2 (proj2 (proj2 (proj2
             (updateSheetName_changes_one_name 7 (js "Totals") sample_pending)))) Hout).
Defined.

Lemma updateSheetName_later_wins_witness :
  0 <> 1 /\
  updateSheetName 0 (js "x") (updateSheetName 1 (js "y") sample_pending)
  = updateSheetName 1 (js "y") (updateSheetName 0 (js "x") sample_pending).
Proof.
  assert (Hne : 0 <> 1) by discriminate.
  split; [exact Hne|].
  exact (proj2 (updateSheetName_later_wins 0 1 (js "x") (js "y") sample_pending) Hne).
Defined.

Lemma merged_sheets_correspond_witness :
  Forall2 (fun u w => decode sample_read u = Normal w)
    (files (sample_state sample_uploads))
    [sample_book [1%N]; sample_book [2%N]; sample_book [3%N];
     sample_book [4%N]; sample_book [5%N]] /\
  files (sample_state sample_uploads) <> [] /\
  (N.of_nat (length (files (sample_state sample_uploads))) <= MAX_EXACT)%N /\
  exists wb,
    (forall fuel, length (files (sample_state sample_uploads)) <= fuel ->
       mergeAndDownload sample_read fuel (sample_state sample_uploads)
       = Some (setIsProcessing false (sample_state sample_uploads),
               [XLSX_writeFile wb (js "merged.xlsx")])) /\
    Forall2 resolved_from (map sheetName (files (sample_state sample_uploads)))
            (SheetNames wb) /\
    map (property_get (Sheets wb)) (SheetNames wb)
    = map firstSheet [sample_book [1%N]; sample_book [2%N]; sample_book [3%N];
                      sample_book [4%N]; sample_book [5%N]] /\
    length (SheetNames wb) = length (files (sample_state sample_uploads)).
Proof.
  assert (Hdec : Forall2 (fun u w => decode sample_read u = Normal w)
            (files (sample_state sample_uploads))
            [sample_book [1%N]; sample_book [2%N]; sample_book [3%N];
             sample_book [4%N]; sample_book [5%N]]).
  { repeat (constructor; [reflexivity|]). constructor. }
  assert (Hne : files (sample_state sample_uploads) <> []) by discriminate.
  assert (Hlen : (N.of_nat (length (files (sample_state sample_uploads)))
                  <= MAX_EXACT)%N) by (vm_compute; discriminate).
  split; [exact Hdec|]. split; [exact Hne|]. split; [exact Hlen|].
  exact (merged_sheets_correspond sample_read (sample_state sample_uploads) _
           Hdec Hne Hlen).
Defined.

Lemma download_iff_all_decode_witness :
  (N.of_nat (length (files (sample_state sample_uploads_broken))) <= MAX_EXACT)%N /\
  exists st' effects,
    (forall fuel, length (files (sample_state sample_uploads_broken)) <= fuel ->
       mergeAndDownload sample_read fuel (sample_state sample_uploads_broken)
       = Some (st', effects)) /\
    files st' = files (sample_state sample_uploads_broken) /\
    isDragOver st' = isDragOver (sample_state sample_uploads_broken) /\
    ((exists wb filename, In (XLSX_writeFile wb filename) effects)
     <-> files (sample_state sample_uploads_broken) <> [] /\
         Forall (decodes sample_read) (files (sample_state sample_uploads_broken))) /\
    ((exists message, In (alert message) effects)
     <-> Exists (fun f => ~ decodes sample_read f)
                (files (sample_state sample_uploads_broken))) /\
    (files (sample_state sample_uploads_broken) <> [] -> isProcessing st' = false) /\
    (files (sample_state sample_uploads_broken) = [] ->
     st' = sample_state sample_uploads_broken).
Proof.
  assert (Hlen : (N.of_nat (length (files (sample_state sample_uploads_broken)))
                  <= MAX_EXACT)%N) by (vm_compute; discriminate).
  split; [exact Hlen|].
  exact (download_iff_all_decode sample_read (sample_state sample_uploads_broken) Hlen).
Defined.

Lemma first_failure_reported_witness :
  files (sample_state sample_uploads_broken)
  = [sample_upload "jan.xlsx" "Jan" [1%N]]
    ++ sample_upload "feb.xlsx" "Feb" [] :: [sample_upload "mar.xlsx" "Mar" [3%N]] /\
  Forall (decodes sample_read) [sample_upload "jan.xlsx" "Jan" [1%N]] /\
  decode sample_read (sample_upload "feb.xlsx" "Feb" []) = Throw "empty"%string /\
  (N.of_nat (length [sample_upload "jan.xlsx" "Jan" [1%N]]) <= MAX_EXACT)%N /\
  mergeAndDownload sample_read 1 (sample_state sample_uploads_broken)
  = Some (setIsProcessing false (sample_state sample_uploads_broken),
          [console_error merge_error_log "empty"%string; alert merge_error_alert]).
Proof.
  assert (Hdec : Forall (decodes sample_read) [sample_upload "jan.xlsx" "Jan" [1%N]]).
  { constructor; [eexists; reflexivity | constructor]. }
  assert (Hlen : (N.of_nat (length [sample_upload "jan.xlsx" "Jan" [1%N]])
                  <= MAX_EXACT)%N) by (vm_compute; discriminate).
  split; [reflexivity|]. split; [exact Hdec|]. split; [reflexivity|].
  split; [exact Hlen|].
  exact (first_failure_reported sample_read (sample_state sample_uploads_broken)
           [sample_upload "jan.xlsx" "Jan" [1%N]]
           [sample_upload "mar.xlsx" "Mar" [3%N]]
           (sample_upload "feb.xlsx" "Feb" []) "empty"%string
           eq_refl Hdec eq_refl Hlen 1 (le_n 1)).
Defined.

Lemma earlier_names_stable_witness :
  (N.of_nat (length (sample_uploads_distinct ++ sample_uploads)) <= MAX_EXACT)%N /\
  exists wb1 wb2 c1 c2 rest,
    (forall fuel, length (sample_uploads_distinct ++ sample_uploads) <= fuel ->
       for_loop sample_read fuel sample_uploads_distinct book_new = Some (wb1, c1) /\
       for_loop sample_read fuel (sample_uploads_distinct ++ sample_uploads) book_new
       = Some (wb2, c2)) /\
    SheetNames wb2 = SheetNames wb1 ++ rest.
Proof.
  assert (Hlen : (N.of_nat (length (sample_uploads_distinct ++ sample_uploads))
                  <= MAX_EXACT)%N) by (vm_compute; discriminate).
  split; [exact Hlen|].
  exact (earlier_names_stable sample_read sample_uploads_distinct sample_uploads Hlen).
Defined.

Lemma names_depend_on_requests_witness :
  map sheetName sample_uploads_same = map sheetName sample_uploads_same_names /\
  Forall (decodes sample_read) sample_uploads_same /\
  Forall (decodes sample_read) sample_uploads_same_names /\
  (N.of_nat (length sample_uploads_same) <= MAX_EXACT)%N /\
  exists wb wb',
    (forall fuel, length sample_uploads_same <= fuel ->
       for_loop sample_read fuel sample_uploads_same book_new = Some (wb, Normal tt) /\
       for_loop sample_read fuel sample_uploads_same_names book_new
       = Some (wb', Normal tt)) /\
    SheetNames wb = SheetNames wb'.
Proof.
  assert (Hd : Forall (decodes sample_read) sample_uploads_same).
  { repeat (constructor; [eexists; reflexivity|]). constructor. }
  assert (Hd' : Forall (decodes sample_read) sample_uploads_same_names).
  { repeat (constructor; [eexists; reflexivity|]). constructor. }
  assert (Hlen : (N.of_nat (length sample_uploads_same) <= MAX_EXACT)%N)
    by (vm_compute; discriminate).
  split; [reflexivity|]. split; [exact Hd|]. split; [exact Hd'|].
  split; [exact Hlen|].
  exact (names_depend_on_requests sample_read sample_uploads_same
           sample_uploads_same_names eq_refl Hd Hd' Hlen).
Defined.

Lemma names_equal_on_31_collide_witness :
  firstn 31 (js name_40_a) = firstn 31 (js name_40_b) /\
  firstn 31 (js name_40_b) <> firstn 29 (js name_40_b) ++ js "_1" /\
  exists wb,
    for_loop sample_read 1 sample_uploads_long book_new = Some (wb, Normal tt) /\
    SheetNames wb = [js name_31; js "abcdefghijklmnopqrstuvwxyzABC_1"].
Proof.
  assert (Hfree : firstn 31 (js name_40_b) <> firstn 29 (js name_40_b) ++ js "_1")
    by discriminate.
  split; [reflexivity|]. split; [exact Hfree|].
  exact (names_equal_on_31_collide sample_read
           (sample_upload "x.xlsx" name_40_a [1%N])
           (sample_upload "y.xlsx" name_40_b [2%N])
           _ _ 1 eq_refl Hfree eq_refl eq_refl (le_n 1)).
Defined.

Lemma same_name_numbered_witness :
  length (js "Report") <= 14 /\
  Forall (fun f => sheetName f = js "Report") sample_uploads_same /\
  Forall (decodes sample_read) sample_uploads_same /\
  (N.of_nat (length sample_uploads_same) <= MAX_EXACT)%N /\
  exists wb,
    (forall fuel, length sample_uploads_same <= fuel ->
       for_loop sample_read fuel sample_uploads_same book_new = Some (wb, Normal tt)) /\
    SheetNames wb
    = [js "Report"; js "Report_1"; js "Report_2"; js "Report_3"].
Proof.
  assert (Hs : length (js "Report") <= 14) by (simpl; lia).
  assert (Hreq : Forall (fun f => sheetName f = js "Report") sample_uploads_same).
  { repeat (constructor; [reflexivity|]). constructor. }
  assert (Hd : Forall (decodes sample_read) sample_uploads_same).
  { repeat (constructor; [eexists; reflexivity|]). constructor. }
  assert (Hlen : (N.of_nat (length sample_uploads_same) <= MAX_EXACT)%N)
    by (vm_compute; discriminate).
  split; [exact Hs|]. split; [exact Hreq|]. split; [exact Hd|].
  split; [exact Hlen|].
  exact (same_name_numbered sample_read (js "Report") _ _ Hs Hreq Hd Hlen).
Defined.

Lemma selection_merges_under_file_names_witness :
  NoDup (map (fun f => replace_extension (File_name f))
             (filter accepted sample_selection)) /\
  Forall (fun f => length (replace_extension (File_name f)) <= 31)
         (filter accepted sample_selection) /\
  Forall (fun f => decodes sample_read (newFile f)) (filter accepted sample_selection) /\
  filter accepted sample_selection <> [] /\
  exists wb,
    mergeAndDownload sample_read 0 (handleFileSelect (Some sample_selection) initial_state)
    = Some (setIsProcessing false (handleFileSelect (Some sample_selection) initial_state),
            [XLSX_writeFile wb (js "merged.xlsx")]) /\
    Forall2 (fun f nm => has_extension (File_name f) nm)
            (filter accepted sample_selection) (SheetNames wb).
Proof.
  assert (Hnd : NoDup (map (fun f => replace_extension (File_name f))
                           (filter accepted sample_selection))).
  { repeat (constructor; [simpl; intuition discriminate|]). constructor. }
  assert (Hfit : Forall (fun f => length (replace_extension (File_name f)) <= 31)
                        (filter accepted sample_selection)).
  { repeat (constructor; [vm_compute; lia|]). constructor. }
  assert (Hd : Forall (fun f => decodes sample_read (newFile f))
                      (filter accepted sample_selection)).
  { repeat (constructor; [eexists; reflexivity|]). constructor. }
  assert (Hne : filter accepted sample_selection <> []) by discriminate.
  split; [exact Hnd|]. split; [exact Hfit|]. split; [exact Hd|].
  split; [exact Hne|].
  exact (selection_merges_under_file_names sample_read sample_selection
           Hnd Hfit Hd Hne 0).
Defined.

Lemma clicked_merge_acts_witness :
  merge_button_clickable sample_pending = true /\
  (N.of_nat (length (files sample_pending)) <= MAX_EXACT)%N /\
  files sample_pending <> [] /\ isProcessing sample_pending = false /\
  exists st' effects,
    (forall fuel, length (files sample_pending) <= fuel ->
       mergeAndDownload sample_read fuel sample_pending = Some (st', effects)) /\
    ((exists wb, effects = [XLSX_writeFile wb (js "merged.xlsx")]) \/
     (exists error, effects = [console_error merge_error_log error;
                               alert merge_error_alert])).
Proof.
  assert (Hlen : (N.of_nat (length (files sample_pending)) <= MAX_EXACT)%N)
    by (vm_compute; discriminate).
  split; [reflexivity|]. split; [exact Hlen|].
  exact (proj2 (clicked_merge_acts sample_read sample_pending) eq_refl Hlen).
Defined.

Lemma resolved_name_keeps_14_witness :
  (N.of_nat (length [js name_31]) < MAX_EXACT)%N /\
  exists nm c tail,
    (forall fuel, S (length [js name_31]) <= fuel ->
                  resolve fuel [js name_31] (js name_31) = Some (nm, c)) /\
    nm = firstn 14 (js name_31) ++ tail.
Proof.
  assert (Hlen : (N.of_nat (length [js name_31]) < MAX_EXACT)%N)
    by (vm_compute; reflexivity).
  split; [exact Hlen|].
  exact (resolved_name_keeps_14 [js name_31] (js name_31) Hlen).
Defined.

(** ** Repeated requests of a name *)




Section RepeatedFacts.

Context {ArrayBuffer WorkSheet Error : Type}.
Variable XLSX_read : ArrayBuffer -> @completion Error (@WorkBook WorkSheet).

Local Abbreviation file_t := (@File ArrayBuffer Error).
Local Abbreviation upload := (@UploadedFile ArrayBuffer Error).
Local Abbreviation book := (@WorkBook WorkSheet).




End RepeatedFacts.

